(** * MCP Playwright server: browser pool and virtual-webcam registry

    A shallow embedding of the resource-management core of the server:

    - [BrowserManager] of [playwright-mcp/src/index.ts]: a map from a
      configuration key to a launched browser, filled lazily by
      [getBrowser] and emptied by [cleanup];
    - [WebcamManager] of [src/webcam-tools.ts]: a map from a device
      path to the [ffmpeg] child process feeding it, with
      [startWebcam], [stopWebcam], [getStatus] and [cleanup];
    - the request handler of [index.ts] for the page-based tools and
      the webcam tools, and the shutdown hook;
    - [listDevices] and [capturePhoto] of the webcam manager with
      their tools, and [generatePythonTest] of [index.ts].

    JavaScript objects that are shared by reference (browsers, browser
    contexts, child processes) live in stores of the [World]; the maps
    of the two managers hold references (indices) into those stores.
    Every call that leaves the program (engine launch, context
    creation, process spawn, signal, timer, shell command) is recorded
    in the [log] of the world, in program order.  [getBrowser] and
    [startWebcam] are given twice: as run-to-completion functions, and
    as tasks that the event loop resumes from one [await] to the next,
    so that calls in flight at the same time can be followed. *)

From stdpp Require Import base option list strings gmap pretty.

Set Default Proof Using "Type".

(** ** Values of the program *)

Inductive EngineType := chromium | firefox | webkit.

Definition engine_name (t : EngineType) : string :=
  match t with
  | chromium => "chromium"
  | firefox => "firefox"
  | webkit => "webkit"
  end.

Definition bool_text (b : bool) : string := if b then "true" else "false".

(** A JavaScript exception: the errors the handler tells apart. *)
Inductive Exn :=
| ZodError (issues : string)
| McpError (code : string) (msg : string)
| TypeError (msg : string)
| Error (msg : string).

(** What an [await]ed call gives back. *)
Inductive Outcome (A : Type) :=
| Returned (a : A)
| Threw (e : Exn).
Arguments Returned {A} a.
Arguments Threw {A} e.

(** ** Shared objects *)

(** A Playwright [Browser]; [br_connected] is the library's
    [isConnected()], false once the engine process died or was closed. *)
Record Browser := {
  br_engine : EngineType;
  br_headless : bool;
  br_connected : bool
}.

(** A [BrowserContext] opened on a browser by [newContext]. *)
Record BrowserContext := {
  cx_browser : nat;
  cx_open : bool
}.

(** A Node [ChildProcess].  [cp_killed] is its [killed] property.
    [cp_exited] is the fact that the operating system has seen the
    process terminate; [cp_error] is an ['error'] event the child will
    emit (how [spawn] reports a binary that cannot be started). *)
Record ChildProcess := {
  cp_argv : list string;
  cp_killed : bool;
  cp_exited : bool;
  cp_error : option string
}.

Inductive Event :=
| EvLaunch (b : nat) (engine : EngineType) (headless : bool)
| EvNewContext (b : nat) (c : nat)
| EvCloseContext (c : nat)
| EvCloseBrowser (b : nat)
| EvSpawn (pid : nat) (argv : list string)
| EvSignal (pid : nat) (signal : string)
| EvExec (command : string)
| EvTimer (ms : nat)
| EvExit (pid : nat).

(** ** The world: both managers, the object stores and the log *)

Record World := {
  browsers : gmap string nat;
  ffmpegProcesses : gmap string nat;
  engines : list Browser;
  contexts : list BrowserContext;
  procs : list ChildProcess;
  log : list Event
}.

Definition empty_world : World :=
  {| browsers := ∅; ffmpegProcesses := ∅; engines := [];
     contexts := []; procs := []; log := [] |}.

Definition with_browsers (m : gmap string nat) (w : World) : World :=
  {| browsers := m; ffmpegProcesses := ffmpegProcesses w;
     engines := engines w; contexts := contexts w;
     procs := procs w; log := log w |}.

Definition with_ffmpegProcesses (m : gmap string nat) (w : World) : World :=
  {| browsers := browsers w; ffmpegProcesses := m;
     engines := engines w; contexts := contexts w;
     procs := procs w; log := log w |}.

Definition with_engines (l : list Browser) (w : World) : World :=
  {| browsers := browsers w; ffmpegProcesses := ffmpegProcesses w;
     engines := l; contexts := contexts w;
     procs := procs w; log := log w |}.

Definition with_contexts (l : list BrowserContext) (w : World) : World :=
  {| browsers := browsers w; ffmpegProcesses := ffmpegProcesses w;
     engines := engines w; contexts := l;
     procs := procs w; log := log w |}.

Definition with_procs (l : list ChildProcess) (w : World) : World :=
  {| browsers := browsers w; ffmpegProcesses := ffmpegProcesses w;
     engines := engines w; contexts := contexts w;
     procs := l; log := log w |}.

Definition emit (ev : Event) (w : World) : World :=
  {| browsers := browsers w; ffmpegProcesses := ffmpegProcesses w;
     engines := engines w; contexts := contexts w;
     procs := procs w; log := log w ++ [ev] |}.

(** ** The environment

    What the collaborators outside the program answer.  The program
    never chooses these; every theorem holds for all of them. *)

Inductive SpawnResult :=
| SpawnThrows (e : string)
| SpawnChild (pending_error : option string).

Inductive PageTool :=
| navigate_to_page | take_screenshot | extract_data
| fill_form | test_website | run_script.

Record Env := {
  launch_error : EngineType -> bool -> option string;
  close_error : nat -> option string;
  page_result : PageTool -> string -> Outcome string;
  is_url : string -> bool;
  spawn_result : list string -> SpawnResult;
  exec_error : string -> option string;
  fs_access : string -> bool;
  date_now : N
}.

(** ** A state and exception monad for [async] bodies *)

Definition Async (A : Type) : Type := World -> Outcome A * World.

Definition ret {A} (a : A) : Async A := fun w => (Returned a, w).

Definition throw {A} (e : Exn) : Async A := fun w => (Threw e, w).

Definition bind {A B} (m : Async A) (k : A -> Async B) : Async B :=
  fun w =>
    match m w with
    | (Returned a, w') => k a w'
    | (Threw e, w') => (Threw e, w')
    end.

Definition effect (f : World -> World) : Async unit :=
  fun w => (Returned tt, f w).

Definition try_catch {A} (m : Async A) (h : Exn -> Async A) : Async A :=
  fun w =>
    match m w with
    | (Returned a, w') => (Returned a, w')
    | (Threw e, w') => h e w'
    end.

Notation "'let!' x := m 'in' k" := (bind m (fun x => k))
  (at level 10, x name, m at level 100, k at level 200).
Notation "'do!' m 'in' k" := (bind m (fun _ => k))
  (at level 10, m at level 100, k at level 200).

(** JavaScript [a || d] on an optional string: [undefined] and the
    empty string are both falsy. *)
Definition or_default (a : option string) (d : string) : string :=
  match a with
  | Some s => if decide (s = "") then d else s
  | None => d
  end.

(** [path.join] of a directory and a file name. *)
Definition path_join (dir file : string) : string := dir +:+ "/" +:+ file.

(** * WebcamManager *)

Definition default_device : string := "/dev/video20".
Definition assetsDir : string := "/opt/mcp-playwright/webcam-assets".

Record StartParams := {
  sp_device : option string;
  sp_mode : option string;
  sp_source : option string;
  sp_loop : option bool
}.

Record StartData := {
  sd_device : string;
  sd_mode : option string;
  sd_source : option string
}.

Record WebcamResult := {
  success : bool;
  message : option string;
  error : option string;
  data : option StartData
}.

Record WebcamStatus := {
  st_device : string;
  st_exists : bool;
  st_streaming : bool;
  st_mode : option string
}.

(** Whether the process behind a reference is still running: the
    operating system has not seen it exit. *)
Definition running (pid : nat) (w : World) : bool :=
  match procs w !! pid with
  | Some p => negb (cp_exited p)
  | None => false
  end.

Definition mark_killed (p : ChildProcess) : ChildProcess :=
  {| cp_argv := cp_argv p; cp_killed := true;
     cp_exited := cp_exited p; cp_error := cp_error p |}.

(** [process.kill(signal)].  On a process that is still running the
    signal is sent and the object's [killed] flag is raised; nothing
    here waits for the process.  On a process that has already exited
    Node sends nothing and the call returns false: the [killed] flag
    stays as it was. *)
Definition kill (pid : nat) (signal : string) (w : World) : World :=
  if running pid w
  then emit (EvSignal pid signal)
         (with_procs (alter mark_killed pid (procs w)) w)
  else w.

(** [checkDevice]: [fs.access] succeeded or threw. *)
Definition checkDevice (env : Env) (device : string) : bool :=
  fs_access env device.

(** [stopWebcam(device)]. *)
Definition stopWebcam (device : string) (w : World) : World :=
  match ffmpegProcesses w !! device with
  | Some pid =>
      let w1 := kill pid "SIGTERM" w in
      with_ffmpegProcesses (delete device (ffmpegProcesses w1)) w1
  | None => w
  end.

(** [getStatus(device)]. *)
Definition getStatus (env : Env) (device : string) (w : World) : WebcamStatus :=
  let exists_ := checkDevice env device in
  let streaming :=
    match ffmpegProcesses w !! device with
    | Some pid =>
        match procs w !! pid with
        | Some p => negb (cp_killed p)
        | None => false
        end
    | None => false
    end in
  {| st_device := device; st_exists := exists_; st_streaming := streaming;
     st_mode := if streaming then Some "active" else None |}.

(** [cleanup()]: [kill] on every recorded process, then clear the map. *)
Definition WebcamManager_cleanup (w : World) : World :=
  let w1 := foldl (fun acc entry => kill entry.2 "SIGTERM" acc) w
                  (map_to_list (ffmpegProcesses w)) in
  with_ffmpegProcesses ∅ w1.

(** ** [startWebcam] *)

Inductive Mode := image | video | pattern | color | screen | text.

Global Instance Mode_eq_dec : EqDecision Mode.
Proof. solve_decision. Defined.

(** The [case] labels of the [switch] on [params.mode]; any other
    string falls to [default]. *)
Definition parse_mode (m : option string) : option Mode :=
  if decide (m = Some "image") then Some image
  else if decide (m = Some "video") then Some video
  else if decide (m = Some "pattern") then Some pattern
  else if decide (m = Some "color") then Some color
  else if decide (m = Some "screen") then Some screen
  else if decide (m = Some "text") then Some text
  else None.

(** A template literal prints a missing value as [undefined]. *)
Definition js_text (o : option string) : string := default "undefined" o.

(** Truthiness of the optional [loop] flag. *)
Definition truthy (b : option bool) : bool := default false b.

Definition image_command (device : string) (p : StartParams) : list string :=
  let imagePath := or_default (sp_source p) (assetsDir +:+ "/test-pattern.jpg") in
  ["ffmpeg"; "-re"; "-loop"; (if truthy (sp_loop p) then "1" else "0");
   "-i"; imagePath; "-f"; "v4l2"; "-vcodec"; "rawvideo";
   "-pix_fmt"; "yuv420p"; "-s"; "640x480"; "-r"; "30"; device].

Definition video_command (device : string) (p : StartParams) : list string :=
  let videoPath := or_default (sp_source p) (assetsDir +:+ "/test-video.mp4") in
  ["ffmpeg"; "-re"; "-stream_loop"; (if truthy (sp_loop p) then "-1" else "0");
   "-i"; videoPath; "-f"; "v4l2"; "-vcodec"; "rawvideo";
   "-pix_fmt"; "yuv420p"; device].

Definition pattern_command (device : string) (p : StartParams) : list string :=
  let pattern_ := or_default (sp_source p) "smpte" in
  ["ffmpeg"; "-f"; "lavfi"; "-i"; pattern_ +:+ "=size=640x480:rate=30";
   "-f"; "v4l2"; "-pix_fmt"; "yuv420p"; device].

Definition color_command (device : string) (p : StartParams) : list string :=
  let color_ := or_default (sp_source p) "blue" in
  ["ffmpeg"; "-f"; "lavfi"; "-i"; "color=c=" +:+ color_ +:+ ":size=640x480:rate=30";
   "-f"; "v4l2"; "-pix_fmt"; "yuv420p"; device].

Definition screen_command (device : string) (p : StartParams) : list string :=
  let display := or_default (sp_source p) ":99" in
  ["ffmpeg"; "-f"; "x11grab"; "-r"; "30"; "-s"; "1920x1080"; "-i"; display;
   "-vf"; "scale=640:480"; "-f"; "v4l2"; "-pix_fmt"; "yuv420p"; device].

Definition text_command (device : string) (textImagePath : string) : list string :=
  ["ffmpeg"; "-re"; "-loop"; "1"; "-i"; textImagePath; "-f"; "v4l2";
   "-vcodec"; "rawvideo"; "-pix_fmt"; "yuv420p"; "-s"; "640x480";
   "-r"; "30"; device].

Definition text_of (p : StartParams) : string :=
  or_default (sp_source p) "MCP Playwright Webcam".

Definition text_image_path (env : Env) : string :=
  path_join assetsDir ("text_" +:+ pretty (date_now env) +:+ ".jpg").

Definition dquote : Ascii.ascii := Ascii.ascii_of_nat 34.

Definition convert_command (env : Env) (txt : string) : string :=
  "convert -size 640x480 xc:lightblue -fill black -pointsize 36 -gravity center -draw "
  +:+ String dquote ("text 0,0 '" +:+ txt +:+ "'")
  +:+ String dquote (" " +:+ text_image_path env).

(** [execAsync(command)]: the shell command runs, and the promise is
    rejected when it fails. *)
Definition execAsync (env : Env) (command : string) : Async unit :=
  fun w =>
    match exec_error env command with
    | Some e => (Threw (Error e), emit (EvExec command) w)
    | None => (Returned tt, emit (EvExec command) w)
    end.

Definition createTextImage (env : Env) (txt : string) : Async string :=
  do! execAsync env (convert_command env txt) in
  ret (text_image_path env).

Definition child (command : list string) (pending : option string) : ChildProcess :=
  {| cp_argv := command; cp_killed := false; cp_exited := false;
     cp_error := pending |}.

(** [spawn(command[0], command.slice(1), ...)]: either throws, or
    gives a fresh [ChildProcess] object; a failure to start the binary
    is then only announced by the child's ['error'] event. *)
Definition spawn (env : Env) (command : list string) : Async nat :=
  fun w =>
    match spawn_result env command with
    | SpawnThrows e => (Threw (Error e), w)
    | SpawnChild pending =>
        let pid := length (procs w) in
        (Returned pid, emit (EvSpawn pid command)
                         (with_procs (procs w ++ [child command pending]) w))
    end.

Definition sleep (ms : nat) : Async unit := effect (emit (EvTimer ms)).

Definition exn_text (e : Exn) : string :=
  match e with
  | ZodError s => "ZodError: " +:+ s
  | McpError _ s => "McpError: " +:+ s
  | TypeError s => "TypeError: " +:+ s
  | Error s => "Error: " +:+ s
  end.

Definition unknown_mode (p : StartParams) : WebcamResult :=
  {| success := false; message := None;
     error := Some ("Unknown mode: " +:+ js_text (sp_mode p)); data := None |}.

Definition started (device : string) (p : StartParams) : WebcamResult :=
  {| success := true;
     message := Some ("Webcam started in " +:+ js_text (sp_mode p)
                      +:+ " mode on " +:+ device);
     error := None;
     data := Some {| sd_device := device; sd_mode := sp_mode p;
                     sd_source := sp_source p |} |}.

Definition start_failed (e : Exn) : WebcamResult :=
  {| success := false; message := None;
     error := Some ("Failed to start webcam: " +:+ exn_text e); data := None |}.

Definition record_process (device : string) (pid : nat) (w : World) : World :=
  with_ffmpegProcesses (<[device := pid]> (ffmpegProcesses w)) w.

(** The [try] block at the end of [startWebcam]. *)
Definition launch_encoder (env : Env) (device : string) (p : StartParams)
    (command : list string) : Async WebcamResult :=
  try_catch
    (let! ffmpeg := spawn env command in
     do! effect (record_process device ffmpeg) in
     do! sleep 1000 in
     ret (started device p))
    (fun e => ret (start_failed e)).

Definition startWebcam (env : Env) (p : StartParams) : Async WebcamResult :=
  let device := or_default (sp_device p) default_device in
  do! effect (stopWebcam device) in
  match parse_mode (sp_mode p) with
  | Some image => launch_encoder env device p (image_command device p)
  | Some video => launch_encoder env device p (video_command device p)
  | Some pattern => launch_encoder env device p (pattern_command device p)
  | Some color => launch_encoder env device p (color_command device p)
  | Some screen => launch_encoder env device p (screen_command device p)
  | Some text =>
      let! textImagePath := createTextImage env (text_of p) in
      launch_encoder env device p (text_command device textImagePath)
  | None => ret (unknown_mode p)
  end.

(** ** [startWebcam] as a task of the event loop

    The same body cut at its [await]s: the call runs up to the first
    one, and each resumption runs to the next. *)

Inductive StartTask :=
| SW_Call (p : StartParams)
| SW_AwaitConvert (device : string) (p : StartParams) (command : string)
| SW_AwaitTimer (device : string) (p : StartParams)
| SW_Done (r : Outcome WebcamResult).

Definition start_try (env : Env) (device : string) (p : StartParams)
    (command : list string) (w : World) : StartTask * World :=
  match spawn env command w with
  | (Returned ffmpeg, w1) =>
      (SW_AwaitTimer device p, emit (EvTimer 1000) (record_process device ffmpeg w1))
  | (Threw e, w1) => (SW_Done (Returned (start_failed e)), w1)
  end.

Definition step_start (env : Env) (t : StartTask) (w : World) : StartTask * World :=
  match t with
  | SW_Call p =>
      let device := or_default (sp_device p) default_device in
      let w1 := stopWebcam device w in
      match parse_mode (sp_mode p) with
      | Some image => start_try env device p (image_command device p) w1
      | Some video => start_try env device p (video_command device p) w1
      | Some pattern => start_try env device p (pattern_command device p) w1
      | Some color => start_try env device p (color_command device p) w1
      | Some screen => start_try env device p (screen_command device p) w1
      | Some text =>
          let command := convert_command env (text_of p) in
          (SW_AwaitConvert device p command, emit (EvExec command) w1)
      | None => (SW_Done (Returned (unknown_mode p)), w1)
      end
  | SW_AwaitConvert device p command =>
      match exec_error env command with
      | Some e => (SW_Done (Threw (Error e)), w)
      | None => start_try env device p (text_command device (text_image_path env)) w
      end
  | SW_AwaitTimer device p => (SW_Done (Returned (started device p)), w)
  | SW_Done r => (SW_Done r, w)
  end.

Fixpoint run_start (env : Env) (fuel : nat) (t : StartTask) (w : World)
    : StartTask * World :=
  match fuel with
  | 0 => (t, w)
  | S n => let '(t', w') := step_start env t w in run_start env n t' w'
  end.

(** * BrowserManager *)

(** The template literal [`${type}-${headless}`]. *)
Definition key (t : EngineType) (headless : bool) : string :=
  engine_name t +:+ "-" +:+ bool_text headless.

(** The [switch] of [getBrowser]: [chromium] is the [default] branch. *)
Definition launch_engine (t : EngineType) : EngineType :=
  match t with
  | firefox => firefox
  | webkit => webkit
  | _ => chromium
  end.

(** [engine.launch({ headless })]. *)
Definition launch (env : Env) (t : EngineType) (headless : bool) : Async nat :=
  fun w =>
    match launch_error env t headless with
    | Some e => (Threw (Error e), w)
    | None =>
        let b := length (engines w) in
        let browser := {| br_engine := t; br_headless := headless;
                          br_connected := true |} in
        (Returned b, emit (EvLaunch b t headless)
                       (with_engines (engines w ++ [browser]) w))
    end.

Definition store_browser (k : string) (b : nat) (w : World) : World :=
  with_browsers (<[k := b]> (browsers w)) w.

(** [getBrowser(type, headless)].  [has] followed by [get] on the same
    key is one lookup; after [set] the [get] gives the value just set. *)
Definition getBrowser (env : Env) (t : EngineType) (headless : bool) : Async nat :=
  fun w =>
    let k := key t headless in
    match browsers w !! k with
    | Some b => (Returned b, w)
    | None =>
        (let! browser := launch env (launch_engine t) headless in
         do! effect (store_browser k browser) in
         ret browser) w
    end.

(** [getBrowser] as a task: its only [await] is the one on [launch]. *)
Inductive GetTask :=
| GB_Call (t : EngineType) (headless : bool)
| GB_AwaitLaunch (k : string) (browser : nat)
| GB_Done (r : Outcome nat).

Definition step_get (env : Env) (t : GetTask) (w : World) : GetTask * World :=
  match t with
  | GB_Call ty headless =>
      let k := key ty headless in
      match browsers w !! k with
      | Some b => (GB_Done (Returned b), w)
      | None =>
          match launch env (launch_engine ty) headless w with
          | (Returned browser, w1) => (GB_AwaitLaunch k browser, w1)
          | (Threw e, w1) => (GB_Done (Threw e), w1)
          end
      end
  | GB_AwaitLaunch k browser =>
      (GB_Done (Returned browser), store_browser k browser w)
  | GB_Done r => (GB_Done r, w)
  end.

(** [browser.close()]: the engine process is ended. *)
Definition disconnect (b : Browser) : Browser :=
  {| br_engine := br_engine b; br_headless := br_headless b;
     br_connected := false |}.

Definition close_browser (env : Env) (b : nat) : Async unit :=
  fun w =>
    match close_error env b with
    | Some e => (Threw (Error e), w)
    | None => (Returned tt, emit (EvCloseBrowser b)
                              (with_engines (alter disconnect b (engines w)) w))
    end.

Fixpoint close_each (env : Env) (bs : list nat) : Async unit :=
  match bs with
  | [] => ret tt
  | b :: rest => do! close_browser env b in close_each env rest
  end.

(** [cleanup()]: close every pooled browser in turn, then clear the
    map.  A [close] that throws leaves the loop and the method. *)
Definition BrowserManager_cleanup (env : Env) : Async unit :=
  fun w =>
    (do! close_each env (map_to_list (browsers w)).*2 in
     effect (with_browsers ∅)) w.

(** * The request handler *)

(** ** Page-based tools *)

(** The arguments of a page tool as far as the handlers below look at
    them: [url], [browser], and [headless] when it is a boolean;
    [a_rest_ok] says whether every other part of the arguments fits
    the schema of the tool (the fields that belong to one tool only,
    and a [headless] that is not a boolean). *)
Record PageArgs := {
  a_url : option string;
  a_browser : option string;
  a_headless : option bool;
  a_rest_ok : bool
}.

Record PageParams := {
  pp_url : string;
  pp_browser : EngineType;
  pp_headless : bool
}.

Definition parse_engine (s : string) : option EngineType :=
  if decide (s = "chromium") then Some chromium
  else if decide (s = "firefox") then Some firefox
  else if decide (s = "webkit") then Some webkit
  else None.

Definition url_issues (env : Env) (args : PageArgs) : list string :=
  match a_url args with
  | None => ["url: Required"]
  | Some u => if is_url env u then [] else ["url: Invalid url"]
  end.

Definition browser_issues (args : PageArgs) : list string :=
  match a_browser args with
  | None => []
  | Some s =>
      match parse_engine s with
      | Some _ => []
      | None => ["browser: Invalid enum value"]
      end
  end.

Definition rest_issues (args : PageArgs) : list string :=
  if a_rest_ok args then [] else ["Invalid input"].

Definition join_issues (issues : list string) : string :=
  foldr (fun i acc => if decide (acc = "") then i else i +:+ ", " +:+ acc) "" issues.

(** [Schema.parse(args)] for the fields every page tool shares:
    [url], [browser] (default [chromium]) and [headless] (default
    [true]); [a_rest_ok] says whether the other fields fit the schema.
    What is followed is whether [parse] returns or throws, and what it
    returns; the text inside the [ZodError] only stands for the list
    of issues that zod builds. *)
Definition parse_args (env : Env) (args : PageArgs) : Async PageParams :=
  let issues := url_issues env args ++ browser_issues args ++ rest_issues args in
  match issues with
  | [] =>
      ret {| pp_url := default "" (a_url args);
             pp_browser := default chromium (a_browser args ≫= parse_engine);
             pp_headless := default true (a_headless args) |}
  | _ => throw (ZodError (join_issues issues))
  end.

Definition closed_message : string :=
  "Target page, context or browser has been closed".

(** [browser.newContext()]; a browser that is no longer connected
    refuses. *)
Definition newContext (b : nat) : Async nat :=
  fun w =>
    match engines w !! b with
    | Some br =>
        if br_connected br then
          let c := length (contexts w) in
          (Returned c, emit (EvNewContext b c)
             (with_contexts (contexts w ++ [{| cx_browser := b; cx_open := true |}]) w))
        else (Threw (Error closed_message), w)
    | None => (Threw (Error closed_message), w)
    end.

Definition close_cx (c : BrowserContext) : BrowserContext :=
  {| cx_browser := cx_browser c; cx_open := false |}.

(** [context.close()]. *)
Definition close_context (c : nat) : Async unit :=
  effect (fun w => emit (EvCloseContext c)
                     (with_contexts (alter close_cx c (contexts w)) w)).

(** Everything a handler does with the page between [newContext] and
    [context.close()]: [newPage], [goto] and the tool's own work. *)
Definition page_work (env : Env) (tool : PageTool) (url : string) : Async string :=
  fun w => (page_result env tool url, w).

(** The [case] block of one page tool; the six blocks have this shape. *)
Definition page_tool (env : Env) (tool : PageTool) (args : PageArgs) : Async string :=
  let! params := parse_args env args in
  let! browser := getBrowser env (pp_browser params) (pp_headless params) in
  let! context := newContext browser in
  let! result := page_work env tool (pp_url params) in
  do! close_context context in
  ret result.

(** ** Webcam tools *)

Record WebcamArgs := { wa_device : option string }.

Definition nl : string := String (Ascii.ascii_of_nat 10) "".

Definition undefined_args : Exn :=
  TypeError "Cannot read properties of undefined".

Definition start_webcam (env : Env) (args : option StartParams) : Async string :=
  match args with
  | None => throw undefined_args
  | Some params =>
      let! result := startWebcam env params in
      ret (if success result then
             js_text (message result) +:+ nl
             +:+ "Device: " +:+ js_text (sd_device <$> data result) +:+ nl
             +:+ "Mode: " +:+ js_text (data result ≫= sd_mode) +:+ nl
             +:+ "Source: " +:+ or_default (data result ≫= sd_source) "default"
           else "Failed to start webcam: " +:+ js_text (error result))
  end.

Definition stop_webcam (args : option WebcamArgs) : Async string :=
  match args with
  | None => throw undefined_args
  | Some params =>
      let device := or_default (wa_device params) default_device in
      do! effect (stopWebcam device) in
      ret ("Webcam stopped on " +:+ device)
  end.

Definition webcam_status (env : Env) (args : option WebcamArgs) : Async string :=
  match args with
  | None => throw undefined_args
  | Some params =>
      fun w =>
        let status := getStatus env (default default_device (wa_device params)) w in
        (Returned ("Webcam Status:" +:+ nl
                   +:+ "Device: " +:+ st_device status +:+ nl
                   +:+ "Exists: " +:+ bool_text (st_exists status) +:+ nl
                   +:+ "Streaming: " +:+ bool_text (st_streaming status) +:+ nl
                   +:+ "Mode: " +:+ or_default (st_mode status) "none"), w)
  end.

(** ** Dispatch *)

(** The requests followed by [call_tool]: the six page tools, the
    tools [start_webcam], [stop_webcam] and [webcam_status], and a
    name that is none of the [case] labels of the [switch].  The tools
    [capture_webcam_photo] and [list_webcams] are given with the host
    they need, further below; [generate_test] is not among these
    requests. *)
Inductive Call :=
| CallPage (tool : PageTool) (args : PageArgs)
| CallStartWebcam (args : option StartParams)
| CallStopWebcam (args : option WebcamArgs)
| CallWebcamStatus (args : option WebcamArgs)
| CallOther (name : string).

(** The [catch] of the handler: a [ZodError] becomes an
    [InvalidParams] error, anything else is thrown again. *)
Definition rethrow (e : Exn) : Async string :=
  match e with
  | ZodError issues => throw (McpError "InvalidParams" ("Invalid parameters: " +:+ issues))
  | _ => throw e
  end.

Definition call_tool (env : Env) (c : Call) : Async string :=
  try_catch
    match c with
    | CallPage tool args => page_tool env tool args
    | CallStartWebcam args => start_webcam env args
    | CallStopWebcam args => stop_webcam args
    | CallWebcamStatus args => webcam_status env args
    | CallOther name =>
        throw (McpError "MethodNotFound" ("Unknown tool: " +:+ name))
    end
    rethrow.

(** ** Shutdown: the [SIGINT] and [SIGTERM] listeners *)

Definition shutdown (env : Env) : Async unit :=
  do! BrowserManager_cleanup env in
  effect WebcamManager_cleanup.

(** The command line of a mode that needs no preparation. *)
Definition direct_command (m : Mode) (device : string) (p : StartParams) : list string :=
  match m with
  | image => image_command device p
  | video => video_command device p
  | pattern => pattern_command device p
  | color => color_command device p
  | screen => screen_command device p
  | text => []
  end.

(** The world once [command] has been spawned from [w], recorded
    under [device], and the timer set. *)
Definition spawned (device : string) (command : list string)
    (pending : option string) (w : World) : World :=
  emit (EvTimer 1000)
    (record_process device (length (procs w))
       (emit (EvSpawn (length (procs w)) command)
          (with_procs (procs w ++ [child command pending]) w))).

(** * The event loop

    Several calls in flight at once.  The loop resumes one task at a
    time and lets it run to its next [await]; between two resumptions
    the outside world may move: a child process exits, a browser
    dies. *)

Inductive Task :=
| GetBrowserTask (t : GetTask)
| StartWebcamTask (t : StartTask).

Inductive Action :=
| Resume (i : nat)
| ProcessExits (pid : nat)
| BrowserDies (b : nat).

Record System := {
  world : World;
  tasks : list Task
}.

Definition step_task (env : Env) (t : Task) (w : World) : Task * World :=
  match t with
  | GetBrowserTask g => let '(g', w') := step_get env g w in (GetBrowserTask g', w')
  | StartWebcamTask s => let '(s', w') := step_start env s w in (StartWebcamTask s', w')
  end.

Definition mark_exited (p : ChildProcess) : ChildProcess :=
  {| cp_argv := cp_argv p; cp_killed := cp_killed p;
     cp_exited := true; cp_error := cp_error p |}.

Definition system_step (env : Env) (s : System) (a : Action) : System :=
  match a with
  | Resume i =>
      match tasks s !! i with
      | Some t =>
          let '(t', w') := step_task env t (world s) in
          {| world := w'; tasks := <[i := t']> (tasks s) |}
      | None => s
      end
  | ProcessExits pid =>
      {| world := emit (EvExit pid)
                    (with_procs (alter mark_exited pid (procs (world s))) (world s));
         tasks := tasks s |}
  | BrowserDies b =>
      {| world := with_engines (alter disconnect b (engines (world s))) (world s);
         tasks := tasks s |}
  end.

Definition run_system (env : Env) (schedule : list Action) (s : System) : System :=
  foldl (system_step env) s schedule.

(** ** Observations on the log *)

Definition is_launch_of (k : string) (ev : Event) : bool :=
  match ev with
  | EvLaunch _ t h => bool_decide (key t h = k)
  | _ => false
  end.

(** How many engine launches the log holds for a key. *)
Definition launch_count (k : string) (w : World) : nat :=
  length (filter (fun ev => is_launch_of k ev = true) (log w)).

(** The contexts that are still open. *)
Definition open_contexts (w : World) : list nat :=
  (filter (fun ic => cx_open ic.2 = true) (imap pair (contexts w))).*1.

(** Child processes the operating system has not seen terminate and
    whose command line ends in [device]. *)
Definition live_producers (device : string) (w : World) : list nat :=
  (filter (fun ip => cp_exited ip.2 = false /\ last (cp_argv ip.2) = Some device)
          (imap pair (procs w))).*1.

(** A quiet environment, for running examples. *)
Definition quiet : Env :=
  {| launch_error := fun _ _ => None;
     close_error := fun _ => None;
     page_result := fun _ url => Returned ("ok " +:+ url);
     is_url := fun _ => true;
     spawn_result := fun _ => SpawnChild None;
     exec_error := fun _ => None;
     fs_access := fun _ => true;
     date_now := 1700000000000%N |}.


(** Run a task for a number of resumptions. *)
Fixpoint run_get (env : Env) (fuel : nat) (t : GetTask) (w : World)
    : GetTask * World :=
  match fuel with
  | 0 => (t, w)
  | S n => let '(t', w') := step_get env t w in run_get env n t' w'
  end.

(** [n] calls of [getBrowser] with the same arguments, each made after
    the one before has returned. *)
Fixpoint getBrowser_times (env : Env) (t : EngineType) (headless : bool)
    (n : nat) (w : World) : list (Outcome nat) * World :=
  match n with
  | 0 => ([], w)
  | S n' =>
      let '(r, w1) := getBrowser env t headless w in
      let '(rs, w2) := getBrowser_times env t headless n' w1 in
      (r :: rs, w2)
  end.

(** The mode names of the [case] labels. *)
Definition mode_names : list string :=
  ["image"; "video"; "pattern"; "color"; "screen"; "text"].

(** ** Concrete inputs used in the examples below *)

Definition color_blue : StartParams :=
  {| sp_device := Some "dev0"; sp_mode := Some "color";
     sp_source := Some "blue"; sp_loop := None |}.

Definition pattern_smpte : StartParams :=
  {| sp_device := Some "dev0"; sp_mode := Some "pattern";
     sp_source := Some "smpte"; sp_loop := None |}.

Definition bogus_mode : StartParams :=
  {| sp_device := Some "dev0"; sp_mode := Some "bogus";
     sp_source := None; sp_loop := None |}.

Definition smpte_argv : list string :=
  ["ffmpeg"; "-f"; "lavfi"; "-i"; "smpte=size=640x480:rate=30";
   "-f"; "v4l2"; "-pix_fmt"; "yuv420p"; "dev0"].

(** The world after [startWebcam] in mode [color] on ["dev0"]. *)
Definition one_stream : World := (startWebcam quiet color_blue empty_world).2.

(** A host without the [ffmpeg] binary: [spawn] hands back a child
    that announces [ENOENT] through its ['error'] event. *)
Definition missing_binary : Env :=
  {| launch_error := launch_error quiet;
     close_error := close_error quiet;
     page_result := page_result quiet;
     is_url := is_url quiet;
     spawn_result := fun _ => SpawnChild (Some "spawn ffmpeg ENOENT");
     exec_error := exec_error quiet;
     fs_access := fs_access quiet;
     date_now := date_now quiet |}.

(** A site that cannot be reached: the page work throws. *)
Definition unreachable : Env :=
  {| launch_error := launch_error quiet;
     close_error := close_error quiet;
     page_result := fun _ _ => Threw (Error "net::ERR_NAME_NOT_RESOLVED");
     is_url := is_url quiet;
     spawn_result := spawn_result quiet;
     exec_error := exec_error quiet;
     fs_access := fs_access quiet;
     date_now := date_now quiet |}.

Definition example_args : PageArgs :=
  {| a_url := Some "https://example.com"; a_browser := None;
     a_headless := None; a_rest_ok := true |}.

(** Two first callers for the same key, both in flight. *)
Definition two_first_callers : System :=
  {| world := empty_world;
     tasks := [GetBrowserTask (GB_Call chromium true);
               GetBrowserTask (GB_Call chromium true)] |}.

(** A pool whose only browser has died after it was handed out. *)
Definition dead_pool : World :=
  world (run_system quiet [Resume 0; Resume 0; BrowserDies 0]
           {| world := empty_world;
              tasks := [GetBrowserTask (GB_Call chromium true)] |}).

(** A server with one pooled browser and one running stream. *)
Definition busy_server : World :=
  (getBrowser quiet firefox false one_stream).2.

(** The stream of [one_stream] after its process has exited on its
    own: the registry still holds the entry. *)
Definition stale_stream : World :=
  world (run_system quiet [ProcessExits 0] {| world := one_stream; tasks := [] |}).

(** * The two managers as objects in use *)

(** ** Sequences of [WebcamManager] calls *)

Inductive WebcamOp :=
| OpStart (p : StartParams)
| OpStop (device : string)
| OpCleanup.

Definition run_op (env : Env) (w : World) (op : WebcamOp) : World :=
  match op with
  | OpStart p => (startWebcam env p w).2
  | OpStop device => stopWebcam device w
  | OpCleanup => WebcamManager_cleanup w
  end.

Definition run_ops (env : Env) (ops : list WebcamOp) (w : World) : World :=
  foldl (run_op env) w ops.

(** Every entry of the registry refers to a process object that has
    not been signalled, and no process is recorded under two devices. *)
Definition registry_ok (w : World) : Prop :=
  (forall d pid, ffmpegProcesses w !! d = Some pid ->
     exists p, procs w !! pid = Some p /\ cp_killed p = false)
  /\ (forall d1 d2 pid, ffmpegProcesses w !! d1 = Some pid ->
        ffmpegProcesses w !! d2 = Some pid -> d1 = d2).

(** Every process ever spawned is still recorded or has been sent a
    signal. *)
Definition no_orphans (w : World) : Prop :=
  forall pid p, procs w !! pid = Some p ->
    cp_killed p = true \/ exists d, ffmpegProcesses w !! d = Some pid.

(** No process object has been seen to exit. *)
Definition all_running (w : World) : Prop :=
  forall pid p, procs w !! pid = Some p -> cp_exited p = false.

(** An outcome that is not a success result. *)
Definition not_started (r : Outcome WebcamResult) : Prop :=
  match r with
  | Returned res => success res = false
  | Threw _ => True
  end.

(** The log of [w'] is the log of [w] followed by events that all
    satisfy [P]. *)
Definition extends_log (P : Event -> Prop) (w w' : World) : Prop :=
  exists evs, log w' = log w ++ evs /\ Forall P evs.

Definition webcam_event (ev : Event) : Prop :=
  match ev with
  | EvSpawn _ _ | EvSignal _ _ | EvExec _ | EvTimer _ => True
  | _ => False
  end.

Definition browser_event (ev : Event) : Prop :=
  match ev with
  | EvLaunch _ _ _ | EvNewContext _ _ | EvCloseContext _ | EvCloseBrowser _ => True
  | _ => False
  end.

(** The device a call works on, if it is a call on one device. *)
Definition op_device (op : WebcamOp) : option string :=
  match op with
  | OpStart p => Some (or_default (sp_device p) default_device)
  | OpStop device => Some device
  | OpCleanup => None
  end.

(** A move of the outside world, as opposed to a resumption of a task. *)
Definition outside_move (a : Action) : bool :=
  match a with
  | Resume _ => false
  | ProcessExits _ | BrowserDies _ => true
  end.

(** ** The browser pool under any schedule *)

(** Browser [b] exists and was launched for the configuration with
    key [k]. *)
Definition browser_matches (w : World) (k : string) (b : nat) : Prop :=
  exists br, engines w !! b = Some br /\ key (br_engine br) (br_headless br) = k.

Definition pool_ok (w : World) : Prop :=
  forall k b, browsers w !! k = Some b -> browser_matches w k b.

Definition task_ok (w : World) (t : Task) : Prop :=
  match t with
  | GetBrowserTask (GB_AwaitLaunch k b) => browser_matches w k b
  | _ => True
  end.

Definition system_ok (s : System) : Prop :=
  pool_ok (world s) /\ Forall (task_ok (world s)) (tasks s).

(** A task that has not run yet. *)
Definition fresh_call (t : Task) : bool :=
  match t with
  | GetBrowserTask (GB_Call _ _) | StartWebcamTask (SW_Call _) => true
  | _ => false
  end.

(** [1] for a [getBrowser] call for key [k] that has not run yet. *)
Definition call_to_come (k : string) (t : Task) : nat :=
  match t with
  | GetBrowserTask (GB_Call ty headless) =>
      if bool_decide (key ty headless = k) then 1 else 0
  | _ => 0
  end.

Definition calls_to_come (k : string) (ts : list Task) : nat :=
  sum_list (call_to_come k <$> ts).

(** The same page tool call made [n] times, one after the other. *)
Fixpoint page_tool_times (env : Env) (tool : PageTool) (args : PageArgs)
    (n : nat) (w : World) : World :=
  match n with
  | 0 => w
  | S n' => page_tool_times env tool args n' (page_tool env tool args w).2
  end.

(** The pool entry for key [k], if there is one, is a connected browser. *)
Definition entry_connected (k : string) (w : World) : Prop :=
  forall b, browsers w !! k = Some b ->
    exists br, engines w !! b = Some br /\ br_connected br = true.

(** * The other webcam tools *)

(** ** Strings as JavaScript uses them here *)

(** [Array.prototype.join]. *)
Fixpoint join (sep : string) (l : list string) : string :=
  match l with
  | [] => ""
  | x :: rest =>
      match rest with
      | [] => x
      | _ => x +:+ sep +:+ join sep rest
      end
  end.

(** [String.prototype.split] on a one-character separator. *)
Fixpoint split_on (c : Ascii.ascii) (s : string) : list string :=
  match s with
  | EmptyString => [""]
  | String a rest =>
      if decide (a = c) then "" :: split_on c rest
      else match split_on c rest with
           | line :: lines => String a line :: lines
           | [] => [String a ""]
           end
  end.

(** [String.prototype.startsWith] and [String.prototype.includes]. *)
Fixpoint starts_with (s prefix : string) {struct prefix} : bool :=
  match prefix, s with
  | EmptyString, _ => true
  | String a prefix', String b s' =>
      if decide (a = b) then starts_with s' prefix' else false
  | String _ _, EmptyString => false
  end.

Fixpoint includes (s needle : string) : bool :=
  starts_with s needle
  || match s with
     | EmptyString => false
     | String _ s' => includes s' needle
     end.

Definition newline : Ascii.ascii := Ascii.ascii_of_nat 10.

Definition dq : string := String dquote "".

(** ** The host: what the shell and the file system answer *)

Record Host := {
  host_env : Env;
  stdout_of : string -> string;
  read_file : string -> Outcome string;
  base64 : string -> string
}.

(** [execAsync(command)] when its [stdout] is used. *)
Definition execAsync_stdout (h : Host) (command : string) : Async string :=
  fun w =>
    match exec_error (host_env h) command with
    | Some e => (Threw (Error e), emit (EvExec command) w)
    | None => (Returned (stdout_of h command), emit (EvExec command) w)
    end.

(** [fs.readFile(path)]. *)
Definition readFile (h : Host) (path : string) : Async string :=
  fun w => (read_file h path, w).

(** ** [listDevices] *)

Definition listDevices (h : Host) : Async (list string) :=
  try_catch
    (let! stdout := execAsync_stdout h "v4l2-ctl --list-devices" in
     ret (filter (fun line => includes line "/dev/video" = true)
            (split_on newline stdout)))
    (fun _ => ret []).

(** ** [capturePhoto] *)

Record PhotoData := {
  ph_path : string;
  ph_base64 : string;
  ph_device : string
}.

Record PhotoResult := {
  ph_success : bool;
  ph_message : option string;
  ph_error : option string;
  ph_data : option PhotoData
}.

Definition capture_path (h : Host) : string :=
  path_join assetsDir ("capture_" +:+ pretty (date_now (host_env h)) +:+ ".jpg").

Definition capture_command (h : Host) (device : string) : string :=
  "ffmpeg -f v4l2 -i " +:+ device +:+ " -frames:v 1 " +:+ capture_path h +:+ " -y".

Definition capturePhoto (h : Host) (device : string) : Async PhotoResult :=
  try_catch
    (do! execAsync (host_env h) (capture_command h device) in
     let! imageData := readFile h (capture_path h) in
     ret {| ph_success := true;
            ph_message := Some "Photo captured successfully";
            ph_error := None;
            ph_data := Some {| ph_path := capture_path h;
                               ph_base64 := base64 h imageData;
                               ph_device := device |} |})
    (fun e =>
       ret {| ph_success := false; ph_message := None;
              ph_error := Some ("Failed to capture photo: " +:+ exn_text e);
              ph_data := None |}).

(** ** The handlers of [capture_webcam_photo] and [list_webcams] *)

Inductive ContentItem :=
| TextItem (text_ : string)
| ImageItem (data_ : string) (mimeType : string).

Definition capture_webcam_photo (h : Host) (args : option WebcamArgs)
    : Async (list ContentItem) :=
  match args with
  | None => throw undefined_args
  | Some params =>
      let! result := capturePhoto h (default default_device (wa_device params)) in
      ret (if ph_success result then
             [TextItem ("Photo captured successfully" +:+ nl
                        +:+ "Path: " +:+ js_text (ph_path <$> ph_data result) +:+ nl
                        +:+ "Device: " +:+ js_text (ph_device <$> ph_data result));
              ImageItem (js_text (ph_base64 <$> ph_data result)) "image/jpeg"]
           else
             [TextItem ("Failed to capture photo: " +:+ js_text (ph_error result))])
  end.

Definition list_webcams (h : Host) : Async (list ContentItem) :=
  let! devices := listDevices h in
  ret [TextItem (match devices with
                 | [] => "No webcam devices found"
                 | _ => "Available webcam devices:" +:+ nl +:+ join nl devices
                 end)].

(** * Test generation: [generatePythonTest] *)

(** The [type] values of [GenerateTestSchema]. *)
Inductive TestType :=
| e2e | form | navigation | api | visual | performance | accessibility.

Definition test_type_name (ty : TestType) : string :=
  match ty with
  | e2e => "e2e"
  | form => "form"
  | navigation => "navigation"
  | api => "api"
  | visual => "visual"
  | performance => "performance"
  | accessibility => "accessibility"
  end.

Definition is_lower (c : Ascii.ascii) : bool :=
  (97 <=? Ascii.nat_of_ascii c) && (Ascii.nat_of_ascii c <=? 122).

Definition is_upper (c : Ascii.ascii) : bool :=
  (65 <=? Ascii.nat_of_ascii c) && (Ascii.nat_of_ascii c <=? 90).

Definition is_digit (c : Ascii.ascii) : bool :=
  (48 <=? Ascii.nat_of_ascii c) && (Ascii.nat_of_ascii c <=? 57).

Definition underscore : Ascii.ascii := Ascii.ascii_of_nat 95.

(** [s.replace(/[^a-z0-9]/gi, '_')]. *)
Fixpoint replace_non_alnum (s : string) : string :=
  match s with
  | EmptyString => EmptyString
  | String c rest =>
      String (if is_lower c || is_upper c || is_digit c then c else underscore)
             (replace_non_alnum rest)
  end.

(** [s.charAt(0).toUpperCase() + s.slice(1)], on the names of the
    schema. *)
Definition capitalize (s : string) : string :=
  match s with
  | EmptyString => EmptyString
  | String c rest =>
      String (if is_lower c then Ascii.ascii_of_nat (Ascii.nat_of_ascii c - 32) else c)
             rest
  end.

Definition python_method_name (url : string) (ty : TestType) : string :=
  "test_" +:+ test_type_name ty +:+ "_" +:+ replace_non_alnum url.

Definition python_imports : string :=
  join nl ["import pytest"; "from playwright.sync_api import Page, expect"; ""].

Definition python_baseTest (url : string) (ty : TestType) : string :=
  python_imports +:+ nl
  +:+ join nl
        [ "class Test" +:+ capitalize (test_type_name ty) +:+ ":";
          "    def " +:+ python_method_name url ty +:+ "(self, page: Page):";
          "        page.goto(" +:+ dq +:+ url +:+ dq +:+ ")";
          "        ";
          "" ].

(** The body of the [e2e] case of [generatePythonTest]. *)
Definition python_e2e_body : string :=
  join nl
    [ "        # Complete user journey";
      "        expect(page).to_have_title(re.compile(" +:+ dq +:+ ".*" +:+ dq +:+ "))";
      "        ";
      "        # Navigate through site";
      "        nav_link = page.locator(" +:+ dq +:+ "nav a" +:+ dq +:+ ").first";
      "        if nav_link.is_visible():";
      "            nav_link.click()";
      "            page.wait_for_load_state(" +:+ dq +:+ "networkidle" +:+ dq +:+ ")";
      "        ";
      "        # Verify page loaded";
      "        expect(page.locator(" +:+ dq +:+ "body" +:+ dq +:+ ")).to_be_visible()" ].

(** The body of its [form] case. *)
Definition python_form_body : string :=
  join nl
    [ "        # Fill and submit form";
      "        page.fill('input[type=" +:+ dq +:+ "text" +:+ dq +:+ "]', " +:+ dq +:+ "Test User" +:+ dq +:+ ")";
      "        page.fill('input[type=" +:+ dq +:+ "email" +:+ dq +:+ "]', " +:+ dq +:+ "test@example.com" +:+ dq +:+ ")";
      "        ";
      "        # Submit";
      "        page.click('button[type=" +:+ dq +:+ "submit" +:+ dq +:+ "]')";
      "        page.wait_for_load_state(" +:+ dq +:+ "networkidle" +:+ dq +:+ ")";
      "        ";
      "        # Check success";
      "        success = page.locator(" +:+ dq +:+ ".success, .alert-success" +:+ dq +:+ ")";
      "        expect(success).to_be_visible()" ].

(** The body of its [default] case. *)
Definition python_basic_body : string :=
  join nl
    [ "        # Basic test";
      "        expect(page).to_have_title(re.compile(" +:+ dq +:+ ".*" +:+ dq +:+ "))";
      "        expect(page.locator(" +:+ dq +:+ "body" +:+ dq +:+ ")).to_be_visible()" ].


Definition generatePythonTest (url : string) (ty : TestType) : string :=
  match ty with
  | e2e => python_baseTest url ty +:+ python_e2e_body
  | form => python_baseTest url ty +:+ python_form_body
  | _ => python_baseTest url ty +:+ python_basic_body
  end.

(** A character that may stand in a Python identifier. *)
Definition ident_char (c : Ascii.ascii) : bool :=
  is_lower c || is_upper c || is_digit c || bool_decide (c = underscore).

Fixpoint chars (s : string) : list Ascii.ascii :=
  match s with
  | EmptyString => []
  | String c rest => c :: chars rest
  end.

(** ** Concrete hosts and inputs for the examples *)

Definition v4l2_listing : string :=
  join nl ["Dummy video device (0x0000) (platform:v4l2loopback-000):";
           String (Ascii.ascii_of_nat 9) "/dev/video20";
           ""].

Definition quiet_host : Host :=
  {| host_env := quiet;
     stdout_of := fun _ => v4l2_listing;
     read_file := fun _ => Returned "JPEG";
     base64 := fun _ => "SlBFRw==" |}.

(** A server whose [close] always throws. *)
Definition stuck_close : Env :=
  {| launch_error := launch_error quiet;
     close_error := fun _ => Some "Protocol error";
     page_result := page_result quiet;
     is_url := is_url quiet;
     spawn_result := spawn_result quiet;
     exec_error := exec_error quiet;
     fs_access := fs_access quiet;
     date_now := date_now quiet |}.

Definition text_hello : StartParams :=
  {| sp_device := Some "dev0"; sp_mode := Some "text";
     sp_source := Some "hello"; sp_loop := None |}.

(** A host without ImageMagick: every shell command fails. *)
Definition no_shell : Env :=
  {| launch_error := launch_error quiet;
     close_error := close_error quiet;
     page_result := page_result quiet;
     is_url := is_url quiet;
     spawn_result := spawn_result quiet;
     exec_error := fun _ => Some "command not found";
     fs_access := fs_access quiet;
     date_now := date_now quiet |}.

Definition bad_args : PageArgs :=
  {| a_url := None; a_browser := Some "opera";
     a_headless := None; a_rest_ok := true |}.

Definition pattern_dev1 : StartParams :=
  {| sp_device := Some "dev1"; sp_mode := Some "pattern";
     sp_source := Some "testsrc"; sp_loop := None |}.

(** The world after two overlapping first callers of [getBrowser]. *)
Definition raced : World :=
  world (run_system quiet [Resume 0; Resume 1; Resume 0; Resume 1] two_first_callers).

Definition no_shell_host : Host :=
  {| host_env := no_shell;
     stdout_of := fun _ => "";
     read_file := fun _ => Threw (Error "ENOENT");
     base64 := fun _ => "" |}.

(** A host on which [spawn] itself throws. *)
Definition spawn_refused : Env :=
  {| launch_error := launch_error quiet;
     close_error := close_error quiet;
     page_result := page_result quiet;
     is_url := is_url quiet;
     spawn_result := fun _ => SpawnThrows "spawn E2BIG";
     exec_error := exec_error quiet;
     fs_access := fs_access quiet;
     date_now := date_now quiet |}.

(** * Properties *)

(** ** Frame lemmas for the primitive effects *)

Lemma kill_ffmpegProcesses pid sig w :
  ffmpegProcesses (kill pid sig w) = ffmpegProcesses w.
Proof. unfold kill. by destruct (running pid w). Qed.

Lemma kill_browsers pid sig w : browsers (kill pid sig w) = browsers w.
Proof. unfold kill. by destruct (running pid w). Qed.

Lemma kill_engines pid sig w : engines (kill pid sig w) = engines w.
Proof. unfold kill. by destruct (running pid w). Qed.

Lemma kill_contexts pid sig w : contexts (kill pid sig w) = contexts w.
Proof. unfold kill. by destruct (running pid w). Qed.

Lemma kill_log pid sig w :
  log (kill pid sig w)
  = log w ++ (if running pid w then [EvSignal pid sig] else []).
Proof. unfold kill. destruct (running pid w); [done|]. by rewrite app_nil_r. Qed.

Lemma kill_procs pid sig w :
  procs (kill pid sig w)
  = if running pid w then alter mark_killed pid (procs w) else procs w.
Proof. unfold kill. by destruct (running pid w). Qed.

Lemma kill_procs_length pid sig w :
  length (procs (kill pid sig w)) = length (procs w).
Proof. rewrite kill_procs. destruct (running pid w); [|done]. by rewrite length_alter. Qed.

Lemma kill_procs_other pid sig w pid' :
  pid' <> pid -> procs (kill pid sig w) !! pid' = procs w !! pid'.
Proof.
  intros Hne. rewrite kill_procs. destruct (running pid w); [|done].
  by apply list_lookup_alter_ne.
Qed.

Lemma kill_running pid sig w pid' :
  running pid' (kill pid sig w) = running pid' w.
Proof.
  unfold kill. destruct (running pid w); [|done].
  unfold running. cbn.
  destruct (decide (pid' = pid)) as [->|Hne].
  - rewrite list_lookup_alter_eq. by destruct (procs w !! pid).
  - by rewrite list_lookup_alter_ne.
Qed.

Lemma stopWebcam_absent d w :
  ffmpegProcesses w !! d = None -> stopWebcam d w = w.
Proof. intros H. unfold stopWebcam. by rewrite H. Qed.

Lemma stopWebcam_present d w pid :
  ffmpegProcesses w !! d = Some pid ->
  stopWebcam d w =
    with_ffmpegProcesses (delete d (ffmpegProcesses w)) (kill pid "SIGTERM" w).
Proof.
  intros H. unfold stopWebcam. rewrite H. cbn zeta.
  by rewrite kill_ffmpegProcesses.
Qed.

Lemma stopWebcam_lookup d w : ffmpegProcesses (stopWebcam d w) !! d = None.
Proof.
  destruct (ffmpegProcesses w !! d) as [pid|] eqn:H.
  - rewrite (stopWebcam_present _ _ _ H). cbn. apply lookup_delete_eq.
  - by rewrite (stopWebcam_absent _ _ H).
Qed.

Lemma stopWebcam_browsers d w : browsers (stopWebcam d w) = browsers w.
Proof.
  unfold stopWebcam. destruct (ffmpegProcesses w !! d); [|done].
  cbn. apply kill_browsers.
Qed.

Lemma stopWebcam_engines d w : engines (stopWebcam d w) = engines w.
Proof.
  unfold stopWebcam. destruct (ffmpegProcesses w !! d); [|done].
  cbn. apply kill_engines.
Qed.

Lemma stopWebcam_contexts d w : contexts (stopWebcam d w) = contexts w.
Proof.
  unfold stopWebcam. destruct (ffmpegProcesses w !! d); [|done].
  cbn. apply kill_contexts.
Qed.

Lemma stopWebcam_procs_length d w :
  length (procs (stopWebcam d w)) = length (procs w).
Proof.
  unfold stopWebcam. destruct (ffmpegProcesses w !! d); [|done].
  cbn. apply kill_procs_length.
Qed.

(** ** Stopping a stream *)


(** The two cases of a recorded process, on the stream of
    [one_stream]: while its process runs, and after the process has
    exited on its own. *)
Example stop_running_and_stale_stream :
  log (stopWebcam "dev0" one_stream) = log one_stream ++ [EvSignal 0 "SIGTERM"]
  /\ cp_killed <$> procs (stopWebcam "dev0" one_stream) !! 0 = Some true
  /\ ffmpegProcesses stale_stream !! "dev0" = Some 0
  /\ log (stopWebcam "dev0" stale_stream) = log stale_stream
  /\ cp_killed <$> procs (stopWebcam "dev0" stale_stream) !! 0 = Some false
  /\ ffmpegProcesses (stopWebcam "dev0" stale_stream) = ∅.
Proof. split_and!; by vm_compute. Qed.

(** C10. Right after [stopWebcam d] the registry has no entry for [d];
    [getStatus d] then reports [streaming = false] and [mode = null]
    while [exists] is whatever the file system says about the device;
    and stopping again changes nothing. *)
Theorem status_after_stop (env : Env) (d : string) (w : World) :
  ffmpegProcesses (stopWebcam d w) !! d = None
  /\ getStatus env d (stopWebcam d w) =
       {| st_device := d; st_exists := fs_access env d;
          st_streaming := false; st_mode := None |}
  /\ stopWebcam d (stopWebcam d w) = stopWebcam d w.
Proof.
  pose proof (stopWebcam_lookup d w) as H.
  split_and!; [done| |by apply stopWebcam_absent].
  unfold getStatus. by rewrite H.
Qed.

(** ** Starting a stream *)

Lemma launch_encoder_spec env device p command w :
  launch_encoder env device p command w =
    match spawn_result env command with
    | SpawnThrows e => (Returned (start_failed (Error e)), w)
    | SpawnChild pending => (Returned (started device p), spawned device command pending w)
    end.
Proof.
  unfold launch_encoder, try_catch, bind, spawn.
  by destruct (spawn_result env command).
Qed.

Lemma startWebcam_direct env p w m :
  parse_mode (sp_mode p) = Some m -> m <> text ->
  startWebcam env p w =
    launch_encoder env (or_default (sp_device p) default_device) p
      (direct_command m (or_default (sp_device p) default_device) p)
      (stopWebcam (or_default (sp_device p) default_device) w).
Proof.
  intros Hm Ht. unfold startWebcam, bind, effect. rewrite Hm.
  by destruct m.
Qed.

Lemma startWebcam_text env p w :
  parse_mode (sp_mode p) = Some text ->
  startWebcam env p w =
    let device := or_default (sp_device p) default_device in
    let w1 := emit (EvExec (convert_command env (text_of p))) (stopWebcam device w) in
    match exec_error env (convert_command env (text_of p)) with
    | Some e => (Threw (Error e), w1)
    | None => launch_encoder env device p (text_command device (text_image_path env)) w1
    end.
Proof.
  intros Hm. unfold startWebcam, bind, effect, createTextImage, bind, execAsync.
  rewrite Hm. cbn.
  by destruct (exec_error env (convert_command env (text_of p))).
Qed.

Lemma startWebcam_unknown env p w :
  parse_mode (sp_mode p) = None ->
  startWebcam env p w =
    (Returned (unknown_mode p), stopWebcam (or_default (sp_device p) default_device) w).
Proof. intros Hm. unfold startWebcam, bind, effect. by rewrite Hm. Qed.

(** A successful start, whatever the mode: some command was spawned
    from a world [w1] that differs from the world after the initial
    [stopWebcam] by at most the [convert] entry in the log. *)
Lemma startWebcam_success env p w r w' :
  startWebcam env p w = (Returned r, w') -> success r = true ->
  let device := or_default (sp_device p) default_device in
  exists command pending prep,
    spawn_result env command = SpawnChild pending
    /\ (prep = [] \/ exists c, prep = [EvExec c])
    /\ r = started device p
    /\ w' = spawned device command pending
              (foldl (fun acc ev => emit ev acc) (stopWebcam device w) prep).
Proof.
  intros Hrun Hok device.
  destruct (parse_mode (sp_mode p)) as [m|] eqn:Hm.
  - destruct (decide (m = text)) as [->|Hnt].
    + rewrite (startWebcam_text _ _ _ Hm) in Hrun. cbn zeta in Hrun.
      destruct (exec_error env (convert_command env (text_of p))); [done|].
      rewrite launch_encoder_spec in Hrun.
      destruct (spawn_result env _) as [e|pending] eqn:Hs.
      * injection Hrun as <- <-. done.
      * injection Hrun as <- <-.
        exists (text_command device (text_image_path env)), pending,
               [EvExec (convert_command env (text_of p))].
        split_and!; [done|right; by eexists|done|done].
    + rewrite (startWebcam_direct _ _ _ _ Hm Hnt) in Hrun.
      rewrite launch_encoder_spec in Hrun.
      destruct (spawn_result env _) as [e|pending] eqn:Hs.
      * injection Hrun as <- <-. done.
      * injection Hrun as <- <-.
        exists (direct_command m device p), pending, [].
        split_and!; [done|by left|done|done].
  - rewrite (startWebcam_unknown _ _ _ Hm) in Hrun.
    injection Hrun as <- <-. done.
Qed.

Lemma emits_procs prep w :
  procs (foldl (fun acc ev => emit ev acc) w prep) = procs w.
Proof. revert w. induction prep as [|ev prep IH]; intros w; [done|]. cbn. by rewrite IH. Qed.

Lemma emits_ffmpegProcesses prep w :
  ffmpegProcesses (foldl (fun acc ev => emit ev acc) w prep) = ffmpegProcesses w.
Proof. revert w. induction prep as [|ev prep IH]; intros w; [done|]. cbn. by rewrite IH. Qed.

Lemma emits_log prep w :
  log (foldl (fun acc ev => emit ev acc) w prep) = log w ++ prep.
Proof.
  revert w. induction prep as [|ev prep IH]; intros w; cbn.
  - by rewrite app_nil_r.
  - rewrite IH. cbn. by rewrite <- app_assoc.
Qed.

Lemma spawned_status env device command pending w :
  getStatus env device (spawned device command pending w) =
    {| st_device := device; st_exists := fs_access env device;
       st_streaming := true; st_mode := Some "active" |}.
Proof.
  unfold getStatus, spawned, record_process. cbn.
  rewrite lookup_insert_eq.
  by rewrite (list_lookup_middle (procs w) [] (child command pending) _ eq_refl).
Qed.

Lemma parse_mode_None m :
  parse_mode m = None <-> m ∉ (Some <$> mode_names).
Proof.
  unfold parse_mode, mode_names. cbn. rewrite !not_elem_of_cons. split.
  - intros Hp.
    repeat (destruct (decide _) as [|?]; [discriminate Hp|]).
    split_and!; auto using not_elem_of_nil.
  - intros (?&?&?&?&?&?&_).
    by repeat (destruct (decide _) as [|?]; [done|]).
Qed.

(** C3 (as amended). A [startWebcam] call whose [mode] is none of the
    six names returns the failure result [Unknown mode: ...] and neither
    spawns a process nor touches the browser pool; but the world it
    leaves is the one after [stopWebcam] on the device, because the
    stream is stopped before the [switch] looks at the mode. *)
Theorem unknown_mode_rejected_after_stop (env : Env) (p : StartParams) (w : World) :
  sp_mode p ∉ (Some <$> mode_names) ->
  let device := or_default (sp_device p) default_device in
  startWebcam env p w = (Returned (unknown_mode p), stopWebcam device w)
  /\ success (unknown_mode p) = false
  /\ length (procs (stopWebcam device w)) = length (procs w)
  /\ browsers (stopWebcam device w) = browsers w
  /\ engines (stopWebcam device w) = engines w
  /\ contexts (stopWebcam device w) = contexts w.
Proof.
  intros Hm device. apply parse_mode_None in Hm.
  split_and!.
  - by apply startWebcam_unknown.
  - done.
  - apply stopWebcam_procs_length.
  - apply stopWebcam_browsers.
  - apply stopWebcam_engines.
  - apply stopWebcam_contexts.
Qed.

Lemma unknown_mode_rejected_after_stop_witness :
  startWebcam quiet bogus_mode one_stream
    = (Returned (unknown_mode bogus_mode), stopWebcam "dev0" one_stream).
Proof.
  apply (unknown_mode_rejected_after_stop quiet bogus_mode one_stream).
  apply (bool_decide_unpack (sp_mode bogus_mode ∉ (Some <$> mode_names))).
  vm_compute. exact I.
Defined.

(** C3, counterexample. With a stream running on ["dev0"], a start
    request in the unknown mode ["bogus"] is rejected, yet the running
    process has been sent [SIGTERM] and its registry entry is gone. *)
Lemma unknown_mode_still_stops_stream :
  ffmpegProcesses one_stream !! "dev0" = Some 0
  /\ (startWebcam quiet bogus_mode one_stream).1 = Returned (unknown_mode bogus_mode)
  /\ log (startWebcam quiet bogus_mode one_stream).2
       = log one_stream ++ [EvSignal 0 "SIGTERM"]
  /\ ffmpegProcesses (startWebcam quiet bogus_mode one_stream).2 !! "dev0" = None
  /\ (startWebcam quiet bogus_mode one_stream).2 <> one_stream.
Proof.
  split_and!; by vm_compute.
Qed.

(** C4 (as amended). After a successful [startWebcam] on a device,
    [getStatus] of that device reports [streaming = true] and the
    fixed mode ["active"], whatever mode was asked for; the requested
    mode is only echoed in the result of [startWebcam]. *)
Theorem status_after_start (env : Env) (p : StartParams) (w w' : World)
    (r : WebcamResult) :
  startWebcam env p w = (Returned r, w') ->
  success r = true ->
  let device := or_default (sp_device p) default_device in
  getStatus env device w' =
    {| st_device := device; st_exists := fs_access env device;
       st_streaming := true; st_mode := Some "active" |}
  /\ (sd_mode <$> data r) = Some (sp_mode p).
Proof.
  intros Hrun Hok device.
  destruct (startWebcam_success _ _ _ _ _ Hrun Hok)
    as (command & pending & prep & _ & _ & -> & ->).
  split; [apply spawned_status|done].
Qed.

Lemma status_after_start_witness :
  getStatus quiet "dev0" (startWebcam quiet pattern_smpte one_stream).2 =
    {| st_device := "dev0"; st_exists := true;
       st_streaming := true; st_mode := Some "active" |}.
Proof.
  apply (status_after_start quiet pattern_smpte one_stream
           (startWebcam quiet pattern_smpte one_stream).2
           (started "dev0" pattern_smpte)); reflexivity.
Defined.

(** C4, counterexample. The scenario of the specification: [color]
    then [pattern] on ["dev0"].  Both starts succeed, and the status
    reports the mode ["active"], not ["pattern"]. *)
Lemma status_mode_is_not_the_declared_mode :
  (startWebcam quiet pattern_smpte one_stream).1
    = Returned (started "dev0" pattern_smpte)
  /\ st_streaming (getStatus quiet "dev0" (startWebcam quiet pattern_smpte one_stream).2)
       = true
  /\ st_mode (getStatus quiet "dev0" (startWebcam quiet pattern_smpte one_stream).2)
       = Some "active"
  /\ st_mode (getStatus quiet "dev0" (startWebcam quiet pattern_smpte one_stream).2)
       <> Some "pattern".
Proof. split_and!; by vm_compute. Qed.

(** What the [try] block can report: a failure exactly when [spawn]
    itself throws, and success for every child it hands back, whether
    or not that child goes on to emit an error. *)
Lemma launch_encoder_success env device p command w :
  exists r,
    (launch_encoder env device p command w).1 = Returned r
    /\ success r = match spawn_result env command with
                   | SpawnThrows _ => false
                   | SpawnChild _ => true
                   end.
Proof.
  rewrite launch_encoder_spec.
  destruct (spawn_result env command); by eexists.
Qed.

Lemma start_result_ignores_child_error env p w m pending :
  parse_mode (sp_mode p) = Some m -> m <> text ->
  spawn_result env (direct_command m (or_default (sp_device p) default_device) p)
    = SpawnChild pending ->
  (startWebcam env p w).1
    = Returned (started (or_default (sp_device p) default_device) p).
Proof.
  intros Hm Hnt Hs.
  by rewrite (startWebcam_direct _ _ _ _ Hm Hnt), launch_encoder_spec, Hs.
Qed.

Lemma start_result_reports_thrown_spawn env p w m e :
  parse_mode (sp_mode p) = Some m -> m <> text ->
  spawn_result env (direct_command m (or_default (sp_device p) default_device) p)
    = SpawnThrows e ->
  startWebcam env p w
    = (Returned (start_failed (Error e)),
       stopWebcam (or_default (sp_device p) default_device) w).
Proof.
  intros Hm Hnt Hs.
  by rewrite (startWebcam_direct _ _ _ _ Hm Hnt), launch_encoder_spec, Hs.
Qed.

(** C5. On a host where the encoder binary is missing, [spawn] does
    not throw: it returns a child that reports [ENOENT] through its
    ['error'] event.  [startWebcam] has no listener for that event and
    looks at nothing after its timer, so it records the child and
    returns success. *)
Theorem missing_binary_reported_as_success :
  (startWebcam missing_binary pattern_smpte empty_world).1
    = Returned (started "dev0" pattern_smpte)
  /\ success (started "dev0" pattern_smpte) = true
  /\ ffmpegProcesses (startWebcam missing_binary pattern_smpte empty_world).2 !! "dev0"
       = Some 0
  /\ procs (startWebcam missing_binary pattern_smpte empty_world).2
       = [child smpte_argv (Some "spawn ffmpeg ENOENT")].
Proof. split_and!; by vm_compute. Qed.

(** ** Replacing a running stream *)

(** C2 (as amended). [startWebcam] on a device that has a recorded
    process [old], when it succeeds: the entry of [old] is removed and
    [kill] is called on it, so that [old], if it is still running, is
    sent [SIGTERM] and has its [killed] flag raised (nothing is sent
    to a process that has already exited); then, with at most the
    [convert] command of the text mode in between and without any
    wait for [old] to exit, the replacement is spawned and recorded.
    The registry ends with one entry for the device, the new process;
    of [old] at most the [killed] flag has changed. *)
Theorem restart_signals_then_spawns (env : Env) (p : StartParams) (w w' : World)
    (old : nat) (r : WebcamResult) :
  ffmpegProcesses w !! or_default (sp_device p) default_device = Some old ->
  startWebcam env p w = (Returned r, w') ->
  success r = true ->
  let device := or_default (sp_device p) default_device in
  exists command pending prep,
    (prep = [] \/ exists c, prep = [EvExec c])
    /\ ffmpegProcesses w' = <[device := length (procs w)]> (ffmpegProcesses w)
    /\ if running old w
       then log w' = log w ++ [EvSignal old "SIGTERM"] ++ prep
                       ++ [EvSpawn (length (procs w)) command; EvTimer 1000]
            /\ procs w' = alter mark_killed old (procs w) ++ [child command pending]
       else log w' = log w ++ prep
                       ++ [EvSpawn (length (procs w)) command; EvTimer 1000]
            /\ procs w' = procs w ++ [child command pending].
Proof.
  intros Hold Hrun Hok device. subst device.
  pose proof (startWebcam_success _ _ _ _ _ Hrun Hok) as Hs. cbn zeta in Hs.
  destruct Hs as (command & pending & prep & _ & Hprep & _ & ->).
  rewrite (stopWebcam_present _ _ _ Hold).
  exists command, pending, prep. split; [done|].
  unfold spawned, record_process. cbn.
  rewrite emits_procs, emits_log, emits_ffmpegProcesses.
  cbn [procs log ffmpegProcesses with_ffmpegProcesses emit with_procs].
  rewrite kill_procs_length, kill_log, kill_procs, insert_delete_eq.
  split; [done|].
  destruct (running old w); cbn; split; try done.
  - by rewrite <- !app_assoc.
  - by rewrite app_nil_r, <- !app_assoc.
Qed.

Lemma restart_signals_then_spawns_witness :
  exists command pending prep,
    (prep = [] \/ exists c, prep = [EvExec c])
    /\ ffmpegProcesses (startWebcam quiet pattern_smpte one_stream).2
       = <["dev0" := length (procs one_stream)]> (ffmpegProcesses one_stream)
    /\ log (startWebcam quiet pattern_smpte one_stream).2
       = log one_stream ++ [EvSignal 0 "SIGTERM"] ++ prep
           ++ [EvSpawn (length (procs one_stream)) command; EvTimer 1000]
    /\ procs (startWebcam quiet pattern_smpte one_stream).2
       = alter mark_killed 0 (procs one_stream) ++ [child command pending].
Proof.
  apply (restart_signals_then_spawns quiet pattern_smpte one_stream
           (startWebcam quiet pattern_smpte one_stream).2 0
           (started "dev0" pattern_smpte)); reflexivity.
Defined.

(** The same restart when the recorded process has already exited on
    its own: nothing is sent to it and its [killed] flag stays false;
    the replacement is spawned and recorded all the same. *)
Example restart_over_an_exited_process :
  ffmpegProcesses stale_stream !! "dev0" = Some 0
  /\ log (startWebcam quiet pattern_smpte stale_stream).2
     = log stale_stream ++ [EvSpawn 1 smpte_argv; EvTimer 1000]
  /\ cp_killed <$> procs (startWebcam quiet pattern_smpte stale_stream).2 !! 0
     = Some false
  /\ ffmpegProcesses (startWebcam quiet pattern_smpte stale_stream).2 !! "dev0"
     = Some 1.
Proof. split_and!; by vm_compute. Qed.

(** C2, counterexample. A stream runs on ["dev0"] as process 0.  One
    resumption of a new [startWebcam] call on ["dev0"] signals process
    0 and spawns process 1 in the same turn of the event loop: when
    the replacement starts, process 0 has not exited, and both
    processes are writing to the device.  The exit of process 0, even
    if it comes at once, is seen only after the spawn. *)
Lemma replacement_spawned_before_old_exits :
  ffmpegProcesses one_stream !! "dev0" = Some 0
  /\ log (world (run_system quiet [Resume 0]
            {| world := one_stream;
               tasks := [StartWebcamTask (SW_Call pattern_smpte)] |}))
     = log one_stream ++ [EvSignal 0 "SIGTERM"; EvSpawn 1 smpte_argv; EvTimer 1000]
  /\ live_producers "dev0"
       (world (run_system quiet [Resume 0]
          {| world := one_stream;
             tasks := [StartWebcamTask (SW_Call pattern_smpte)] |}))
     = [0; 1]
  /\ log (world (run_system quiet [Resume 0; ProcessExits 0; Resume 0]
            {| world := one_stream;
               tasks := [StartWebcamTask (SW_Call pattern_smpte)] |}))
     = log one_stream ++ [EvSignal 0 "SIGTERM"; EvSpawn 1 smpte_argv;
                          EvTimer 1000; EvExit 0].
Proof. split_and!; by vm_compute. Qed.

(** ** The tasks agree with the run-to-completion functions *)

Lemma run_get_getBrowser env t headless w :
  run_get env 2 (GB_Call t headless) w =
    (GB_Done (getBrowser env t headless w).1, (getBrowser env t headless w).2).
Proof.
  unfold getBrowser, bind, effect, ret. cbn.
  destruct (browsers w !! key t headless); [done|].
  unfold launch. by destruct (launch_error env (launch_engine t) headless).
Qed.

Lemma start_try_launch_encoder env device p command w :
  run_start env 2 (start_try env device p command w).1
                  (start_try env device p command w).2 =
    (SW_Done (launch_encoder env device p command w).1,
     (launch_encoder env device p command w).2).
Proof.
  rewrite launch_encoder_spec. unfold start_try, spawn.
  by destruct (spawn_result env command).
Qed.

Lemma run_start_startWebcam env p w :
  run_start env 3 (SW_Call p) w =
    (SW_Done (startWebcam env p w).1, (startWebcam env p w).2).
Proof.
  destruct (parse_mode (sp_mode p)) as [m|] eqn:Hm.
  - destruct (decide (m = text)) as [->|Hnt].
    + rewrite (startWebcam_text _ _ _ Hm). cbn. rewrite Hm. cbn.
      destruct (exec_error env (convert_command env (text_of p))); [done|].
      rewrite launch_encoder_spec. unfold start_try, spawn.
      by destruct (spawn_result env _).
    + rewrite (startWebcam_direct _ _ _ _ Hm Hnt).
      rewrite <- start_try_launch_encoder.
      cbn. rewrite Hm.
      destruct m; try done;
        by destruct (start_try env _ p _ _) as [t1 w1].
  - rewrite (startWebcam_unknown _ _ _ Hm). cbn. by rewrite Hm.
Qed.

(** ** The browser pool *)

Lemma launch_engine_id t : launch_engine t = t.
Proof. by destruct t. Qed.

(** Two configurations share a key only when they are the same. *)
Lemma key_inj t1 h1 t2 h2 : key t1 h1 = key t2 h2 -> t1 = t2 /\ h1 = h2.
Proof. destruct t1, h1, t2, h2; by vm_compute. Qed.

Lemma getBrowser_stored env t headless w b :
  browsers w !! key t headless = Some b ->
  getBrowser env t headless w = (Returned b, w).
Proof. intros H. unfold getBrowser. by rewrite H. Qed.

Lemma getBrowser_fresh env t headless w :
  browsers w !! key t headless = None ->
  launch_error env t headless = None ->
  getBrowser env t headless w =
    (Returned (length (engines w)),
     store_browser (key t headless) (length (engines w))
       (emit (EvLaunch (length (engines w)) t headless)
          (with_engines (engines w ++ [{| br_engine := t; br_headless := headless;
                                          br_connected := true |}]) w))).
Proof.
  intros Hk Hl. unfold getBrowser, bind, effect, ret, launch.
  by rewrite Hk, launch_engine_id, Hl.
Qed.

Lemma getBrowser_times_stored env t headless n w b :
  browsers w !! key t headless = Some b ->
  getBrowser_times env t headless n w = (replicate n (Returned b), w).
Proof.
  intros H. induction n as [|n IH]; [done|].
  cbn. by rewrite (getBrowser_stored _ _ _ _ _ H), IH.
Qed.

Lemma launch_count_emit_launch k w b t headless :
  key t headless = k ->
  launch_count k (emit (EvLaunch b t headless) w) = S (launch_count k w).
Proof.
  intros Hk. unfold launch_count. cbn. rewrite filter_app, length_app.
  rewrite filter_cons_True; [cbn; lia|].
  cbn. by apply bool_decide_eq_true.
Qed.

(** C1 (as amended). Calls of [getBrowser] with the same type and
    headless flag that are made one after the other, on a pool with no
    entry for the key and an engine that can be launched: the first
    call launches once and stores the browser, every later call
    returns that stored browser, and the log gains exactly one launch
    for the key. *)
Theorem sequential_calls_launch_once (env : Env) (t : EngineType) (headless : bool)
    (n : nat) (w w' : World) (rs : list (Outcome nat)) :
  launch_error env t headless = None ->
  browsers w !! key t headless = None ->
  getBrowser_times env t headless (S n) w = (rs, w') ->
  rs = replicate (S n) (Returned (length (engines w)))
  /\ browsers w' !! key t headless = Some (length (engines w))
  /\ launch_count (key t headless) w' = S (launch_count (key t headless) w).
Proof.
  intros Hl Hk Hrun. cbn in Hrun.
  rewrite (getBrowser_fresh _ _ _ _ Hk Hl) in Hrun.
  rewrite (getBrowser_times_stored _ _ _ _ _ (length (engines w))) in Hrun.
  - injection Hrun as <- <-. split_and!; [done| |].
    + cbn. apply lookup_insert_eq.
    + exact (launch_count_emit_launch (key t headless) (with_engines _ w)
               _ t headless eq_refl).
  - cbn. apply lookup_insert_eq.
Qed.

Lemma sequential_calls_launch_once_witness :
  (getBrowser_times quiet chromium true 3 empty_world).1
    = replicate 3 (Returned (length (engines empty_world)))
  /\ browsers (getBrowser_times quiet chromium true 3 empty_world).2
       !! key chromium true = Some (length (engines empty_world))
  /\ launch_count (key chromium true)
       (getBrowser_times quiet chromium true 3 empty_world).2
     = S (launch_count (key chromium true) empty_world).
Proof.
  apply (sequential_calls_launch_once quiet chromium true 2 empty_world
           (getBrowser_times quiet chromium true 3 empty_world).2
           (getBrowser_times quiet chromium true 3 empty_world).1);
    reflexivity.
Defined.

(** The race in general: on any pool without an entry for the key,
    two callers that overlap both launch. *)
Lemma overlapping_first_callers_both_launch env t headless w :
  launch_error env t headless = None ->
  browsers w !! key t headless = None ->
  let s := run_system env [Resume 0; Resume 1; Resume 0; Resume 1]
             {| world := w;
                tasks := [GetBrowserTask (GB_Call t headless);
                          GetBrowserTask (GB_Call t headless)] |} in
  tasks s = [GetBrowserTask (GB_Done (Returned (length (engines w))));
             GetBrowserTask (GB_Done (Returned (S (length (engines w)))))]
  /\ launch_count (key t headless) (world s)
     = S (S (launch_count (key t headless) w)).
Proof.
  intros Hl Hk.
  repeat (progress (cbn; unfold launch; rewrite ?Hk, ?launch_engine_id, ?Hl)).
  split.
  - rewrite length_app. cbn. by rewrite Nat.add_1_r.
  - unfold launch_count. cbn. rewrite !filter_app, !length_app.
    rewrite !filter_cons_True by (cbn; by apply bool_decide_eq_true).
    cbn. lia.
Qed.

(** C1, counterexample. Two calls for [chromium], headless, on an
    empty pool.  The second call is made while the first is waiting
    for its launch: it finds no entry either and launches again.  Two
    engines are launched, the callers hold different browsers, and the
    pool keeps only the second. *)
Lemma overlapping_calls_launch_twice :
  tasks (run_system quiet [Resume 0; Resume 1; Resume 0; Resume 1] two_first_callers)
    = [GetBrowserTask (GB_Done (Returned 0)); GetBrowserTask (GB_Done (Returned 1))]
  /\ launch_count (key chromium true)
       (world (run_system quiet [Resume 0; Resume 1; Resume 0; Resume 1]
                 two_first_callers)) = 2
  /\ browsers (world (run_system quiet [Resume 0; Resume 1; Resume 0; Resume 1]
                        two_first_callers)) !! key chromium true = Some 1.
Proof. split_and!; by vm_compute. Qed.

(** ** Dead browsers *)

Lemma newContext_dead w b br :
  engines w !! b = Some br -> br_connected br = false ->
  newContext b w = (Threw (Error closed_message), w).
Proof. intros Hb Hc. unfold newContext. by rewrite Hb, Hc. Qed.

(** C6 (as amended). [getBrowser] never looks at the state of a
    pooled browser: when the pool has an entry for the key, that
    browser is returned and the world is left as it is (no launch, no
    change of the pool), also when the browser is no longer connected;
    a context cannot then be opened on it. *)
Theorem stored_browser_returned_unchecked (env : Env) (t : EngineType)
    (headless : bool) (w : World) (b : nat) (br : Browser) :
  browsers w !! key t headless = Some b ->
  engines w !! b = Some br ->
  getBrowser env t headless w = (Returned b, w)
  /\ (br_connected br = false ->
      newContext b w = (Threw (Error closed_message), w)).
Proof.
  intros Hk Hb. split.
  - by apply getBrowser_stored.
  - intros Hc. by apply (newContext_dead _ _ br).
Qed.

Lemma stored_browser_returned_unchecked_witness :
  getBrowser quiet chromium true dead_pool = (Returned 0, dead_pool)
  /\ (br_connected {| br_engine := chromium; br_headless := true;
                      br_connected := false |} = false ->
      newContext 0 dead_pool = (Threw (Error closed_message), dead_pool)).
Proof.
  apply (stored_browser_returned_unchecked quiet chromium true dead_pool 0
           {| br_engine := chromium; br_headless := true; br_connected := false |});
    reflexivity.
Defined.

(** C6, counterexample. The pooled [chromium] browser has died.  The
    next [getBrowser] for the same key returns that dead browser and
    launches nothing; the pool still holds it afterwards, and a
    [navigate_to_page] call fails on it. *)
Lemma dead_browser_is_handed_out :
  browsers dead_pool !! key chromium true = Some 0
  /\ (br_connected <$> engines dead_pool !! 0) = Some false
  /\ getBrowser quiet chromium true dead_pool = (Returned 0, dead_pool)
  /\ launch_count (key chromium true) (getBrowser quiet chromium true dead_pool).2 = 1
  /\ call_tool quiet (CallPage navigate_to_page example_args) dead_pool
     = (Threw (Error closed_message), dead_pool).
Proof. split_and!; by vm_compute. Qed.

(** ** Page tools and their contexts *)

Lemma parse_args_world env args r w w' :
  parse_args env args w = (r, w') -> w' = w.
Proof.
  unfold parse_args, ret, throw.
  destruct (url_issues env args ++ browser_issues args ++ rest_issues args);
    by intros [= _ <-].
Qed.

Lemma getBrowser_inv env t headless w b w1 :
  getBrowser env t headless w = (Returned b, w1) ->
  browsers w1 !! key t headless = Some b
  /\ contexts w1 = contexts w
  /\ (forall k b0, browsers w !! k = Some b0 -> browsers w1 !! k = Some b0).
Proof.
  unfold getBrowser, bind, effect, ret, launch.
  destruct (browsers w !! key t headless) as [b0|] eqn:Hk.
  - intros [= <- <-]. done.
  - destruct (launch_error env (launch_engine t) headless); [done|].
    intros [= <- <-]. cbn. split_and!; [apply lookup_insert_eq|done|].
    intros k b0 Hb0. rewrite lookup_insert_ne; [done|]. congruence.
Qed.

Lemma newContext_inv b w c w2 :
  newContext b w = (Returned c, w2) ->
  c = length (contexts w)
  /\ w2 = emit (EvNewContext b c)
            (with_contexts (contexts w ++ [{| cx_browser := b; cx_open := true |}]) w).
Proof.
  unfold newContext. destruct (engines w !! b) as [br|]; [|done].
  destruct (br_connected br); [|done]. by intros [= <- <-].
Qed.

Lemma open_contexts_closed_last w l b :
  contexts w = l ++ [{| cx_browser := b; cx_open := false |}] ->
  open_contexts w = open_contexts (with_contexts l w).
Proof.
  intros H. unfold open_contexts. rewrite H. cbn.
  rewrite imap_app, filter_app, fmap_app.
  by rewrite app_nil_r.
Qed.

(** C7 (as amended). A page tool call that returns: its arguments
    were parsed, the browser [b] for the key came from [getBrowser],
    one new context was opened on [b] and that same context is closed
    when the call returns, so the open contexts are those of before the
    call; after [getBrowser] the log gains exactly the opening and the
    closing of that context; and every entry the pool had is still
    there, with [b] under the key of the call. *)
Theorem page_tool_closes_its_context (env : Env) (tool : PageTool) (args : PageArgs)
    (w w' : World) (result : string) :
  page_tool env tool args w = (Returned result, w') ->
  exists params b w1,
    parse_args env args w = (Returned params, w)
    /\ getBrowser env (pp_browser params) (pp_headless params) w = (Returned b, w1)
    /\ contexts w' = contexts w ++ [{| cx_browser := b; cx_open := false |}]
    /\ open_contexts w' = open_contexts w
    /\ log w' = log w1 ++ [EvNewContext b (length (contexts w));
                           EvCloseContext (length (contexts w))]
    /\ browsers w' !! key (pp_browser params) (pp_headless params) = Some b
    /\ (forall k b0, browsers w !! k = Some b0 -> browsers w' !! k = Some b0).
Proof.
  unfold page_tool, bind, page_work, close_context, effect, ret.
  destruct (parse_args env args w) as [[params|e] w0] eqn:Hp; [|done].
  pose proof (parse_args_world _ _ _ _ _ Hp) as ->.
  destruct (getBrowser env _ _ w) as [[b|e] w1] eqn:Hg; [|done].
  destruct (getBrowser_inv _ _ _ _ _ _ Hg) as (Hkey & Hctx & Hmono).
  destruct (newContext b w1) as [[c|e] w2] eqn:Hn; [|done].
  destruct (newContext_inv _ _ _ _ Hn) as (-> & ->).
  destruct (page_result env tool (pp_url params)) as [txt|e]; [|done].
  intros [= <- <-]. exists params, b, w1.
  assert (Hclosed : alter close_cx (length (contexts w1))
            (contexts w1 ++ [{| cx_browser := b; cx_open := true |}])
          = contexts w ++ [{| cx_browser := b; cx_open := false |}]).
  { rewrite <- (Nat.add_0_r (length (contexts w1))), alter_app_r.
    by rewrite Hctx. }
  split_and!; try done.
  - by erewrite (open_contexts_closed_last _ (contexts w) b); [|exact Hclosed].
  - cbn. rewrite Hctx. by rewrite <- app_assoc.
Qed.

Lemma page_tool_closes_its_context_witness :
  exists params b w1,
    parse_args quiet example_args busy_server = (Returned params, busy_server)
    /\ getBrowser quiet (pp_browser params) (pp_headless params) busy_server
       = (Returned b, w1)
    /\ contexts (page_tool quiet run_script example_args busy_server).2
       = contexts busy_server ++ [{| cx_browser := b; cx_open := false |}]
    /\ open_contexts (page_tool quiet run_script example_args busy_server).2
       = open_contexts busy_server
    /\ log (page_tool quiet run_script example_args busy_server).2
       = log w1 ++ [EvNewContext b (length (contexts busy_server));
                    EvCloseContext (length (contexts busy_server))]
    /\ browsers (page_tool quiet run_script example_args busy_server).2
         !! key (pp_browser params) (pp_headless params) = Some b
    /\ (forall k b0, browsers busy_server !! k = Some b0 ->
          browsers (page_tool quiet run_script example_args busy_server).2 !! k
          = Some b0).
Proof.
  apply (page_tool_closes_its_context quiet run_script example_args busy_server
           (page_tool quiet run_script example_args busy_server).2
           "ok https://example.com").
  reflexivity.
Defined.

(** C7, counterexample. The page cannot be reached, so the page work
    of [navigate_to_page] throws.  The call ends with that error, and
    the context it opened is still open: the log has the opening and
    no closing. *)
Lemma context_left_open_when_page_throws :
  (call_tool unreachable (CallPage navigate_to_page example_args) empty_world).1
    = Threw (Error "net::ERR_NAME_NOT_RESOLVED")
  /\ open_contexts
       (call_tool unreachable (CallPage navigate_to_page example_args) empty_world).2
     = [0]
  /\ log (call_tool unreachable (CallPage navigate_to_page example_args) empty_world).2
     = [EvLaunch 0 chromium true; EvNewContext 0 0]
  /\ open_contexts empty_world = [].
Proof. split_and!; by vm_compute. Qed.

(** ** Shutdown *)

Lemma close_each_inv env bs w w' :
  close_each env bs w = (Returned tt, w') ->
  browsers w' = browsers w
  /\ ffmpegProcesses w' = ffmpegProcesses w
  /\ log w' = log w ++ (EvCloseBrowser <$> bs).
Proof.
  revert w. induction bs as [|b bs IH]; intros w; cbn.
  - intros [= <-]. by rewrite app_nil_r.
  - unfold bind, close_browser.
    destruct (close_error env b); [done|].
    intros Hrest. destruct (IH _ Hrest) as (Hb & Hf & Hl).
    rewrite Hb, Hf, Hl. cbn. by rewrite <- app_assoc.
Qed.

Lemma close_each_total env bs w :
  (forall b, close_error env b = None) ->
  exists w', close_each env bs w = (Returned tt, w').
Proof.
  intros Hok. revert w. induction bs as [|b bs IH]; intros w; cbn.
  - by eexists.
  - unfold bind, close_browser. rewrite Hok. apply IH.
Qed.

Lemma close_each_procs env bs w w' :
  close_each env bs w = (Returned tt, w') -> procs w' = procs w.
Proof.
  revert w. induction bs as [|b bs IH]; intros w; cbn.
  - by intros [= <-].
  - unfold bind, close_browser.
    destruct (close_error env b); [done|].
    intros Hrest. by rewrite (IH _ Hrest).
Qed.

Lemma kill_all_inv (l : list (string * nat)) w :
  browsers (foldl (fun acc entry => kill entry.2 "SIGTERM" acc) w l) = browsers w
  /\ log (foldl (fun acc entry => kill entry.2 "SIGTERM" acc) w l)
     = log w ++ ((fun entry => EvSignal entry.2 "SIGTERM")
                   <$> filter (fun entry => running entry.2 w = true) l).
Proof.
  revert w. induction l as [|e l IH]; intros w; cbn.
  - by rewrite app_nil_r.
  - destruct (IH (kill e.2 "SIGTERM" w)) as (Hb & Hl).
    rewrite Hb, Hl, kill_browsers, kill_log. split; [done|].
    rewrite (list_filter_iff (fun entry => running entry.2 (kill e.2 "SIGTERM" w) = true)
               (fun entry => running entry.2 w = true))
      by (intros x; by rewrite kill_running).
    destruct (decide (running e.2 w = true)) as [Hr|Hr].
    + rewrite Hr. cbn. by rewrite <- app_assoc.
    + apply not_true_is_false in Hr. rewrite Hr. by rewrite app_nil_r.
Qed.

(** C8. When the shutdown sequence ([BrowserManager.cleanup], then
    [WebcamManager.cleanup]) runs to its end, the browser pool is empty
    and the device registry is empty, whatever they held before; every
    browser that was pooled has been closed and every recorded process
    that was still running has been sent [SIGTERM]. *)
Theorem shutdown_drains_pool_and_registry (env : Env) (w w' : World) :
  shutdown env w = (Returned tt, w') ->
  browsers w' = ∅
  /\ ffmpegProcesses w' = ∅
  /\ (forall k b, browsers w !! k = Some b -> EvCloseBrowser b ∈ log w')
  /\ (forall d pid, ffmpegProcesses w !! d = Some pid -> running pid w = true ->
        EvSignal pid "SIGTERM" ∈ log w').
Proof.
  unfold shutdown, bind, BrowserManager_cleanup, bind, effect.
  destruct (close_each env _ w) as [[[]|e] w1] eqn:Hclose; [|done].
  intros [= <-].
  destruct (close_each_inv _ _ _ _ Hclose) as (Hb & Hf & Hl).
  pose proof (close_each_procs _ _ _ _ Hclose) as Hp.
  unfold WebcamManager_cleanup. cbn.
  destruct (kill_all_inv (map_to_list (ffmpegProcesses w1)) (with_browsers ∅ w1))
    as (Hb' & Hl').
  split_and!; [done|done| |].
  - intros k b Hk. rewrite Hl'. cbn. rewrite Hl.
    apply elem_of_app; left. apply elem_of_app; right.
    apply list_elem_of_fmap. exists b. split; [done|].
    apply list_elem_of_fmap. exists (k, b). split; [done|].
    by apply elem_of_map_to_list.
  - intros d pid Hd Hr. rewrite Hl'. apply elem_of_app; right.
    apply list_elem_of_fmap. exists (d, pid). split; [done|].
    apply list_elem_of_filter. split.
    + unfold running in *. cbn. by rewrite Hp.
    + apply elem_of_map_to_list. by rewrite Hf.
Qed.

Lemma shutdown_drains_pool_and_registry_witness :
  browsers (shutdown quiet busy_server).2 = ∅
  /\ ffmpegProcesses (shutdown quiet busy_server).2 = ∅
  /\ (forall k b, browsers busy_server !! k = Some b ->
        EvCloseBrowser b ∈ log (shutdown quiet busy_server).2)
  /\ (forall d pid, ffmpegProcesses busy_server !! d = Some pid ->
        running pid busy_server = true ->
        EvSignal pid "SIGTERM" ∈ log (shutdown quiet busy_server).2).
Proof.
  apply (shutdown_drains_pool_and_registry quiet busy_server
           (shutdown quiet busy_server).2).
  reflexivity.
Defined.

(** The shutdown sequence does run to its end when no [close] throws. *)
Lemma shutdown_completes env w :
  (forall b, close_error env b = None) ->
  exists w', shutdown env w = (Returned tt, w').
Proof.
  intros Hok. unfold shutdown, bind, BrowserManager_cleanup, bind, effect.
  destruct (close_each_total env (map_to_list (browsers w)).*2 w Hok) as (w1 & ->).
  by eexists.
Qed.

Example busy_server_holds_resources :
  browsers busy_server !! key firefox false = Some 0
  /\ ffmpegProcesses busy_server !! "dev0" = Some 0.
Proof. split; by vm_compute. Qed.

(** * Further properties of the managers *)

(** ** Worlds that differ only in the log *)

Lemma extends_log_refl P w : extends_log P w w.
Proof. exists []. by rewrite app_nil_r. Qed.

Lemma extends_log_trans P w1 w2 w3 :
  extends_log P w1 w2 -> extends_log P w2 w3 -> extends_log P w1 w3.
Proof.
  intros (e1 & H1 & F1) (e2 & H2 & F2). exists (e1 ++ e2).
  rewrite H2, H1, <- app_assoc. split; [done|]. by apply Forall_app.
Qed.

Lemma extends_log_same P w w' : log w' = log w -> extends_log P w w'.
Proof. intros H. exists []. by rewrite app_nil_r. Qed.

Lemma extends_log_emit P ev w w' :
  P ev -> log w' = log w ++ [ev] -> extends_log P w w'.
Proof. intros HP H. exists [ev]. split; [done|]. by constructor. Qed.

(** ** The world [startWebcam] leaves *)

(** Whatever the arguments and the environment, [startWebcam] first
    stops the device, possibly runs [convert], and then either stops
    there without a success result, or spawns, records and succeeds. *)
Lemma startWebcam_shape env p w :
  let device := or_default (sp_device p) default_device in
  exists prep,
    (prep = [] \/ exists c, prep = [EvExec c])
    /\ let w1 := foldl (fun acc ev => emit ev acc) (stopWebcam device w) prep in
       (not_started (startWebcam env p w).1 /\ (startWebcam env p w).2 = w1)
       \/ (exists command pending,
             startWebcam env p w
             = (Returned (started device p), spawned device command pending w1)).
Proof.
  intros device.
  destruct (parse_mode (sp_mode p)) as [m|] eqn:Hm.
  - destruct (decide (m = text)) as [->|Hnt].
    + rewrite (startWebcam_text _ _ _ Hm). cbn zeta. fold device.
      exists [EvExec (convert_command env (text_of p))].
      split; [right; by eexists|].
      destruct (exec_error env (convert_command env (text_of p))); [by left|].
      rewrite launch_encoder_spec.
      destruct (spawn_result env _) as [e|pending]; [by left|].
      right. by eexists _, _.
    + rewrite (startWebcam_direct _ _ _ _ Hm Hnt). fold device.
      exists []. split; [by left|].
      rewrite launch_encoder_spec.
      destruct (spawn_result env _) as [e|pending]; [by left|].
      right. by eexists _, _.
  - rewrite (startWebcam_unknown _ _ _ Hm). exists []. split; [by left|]. by left.
Qed.

(** ** The registry invariant *)

Lemma registry_ok_empty : registry_ok empty_world.
Proof. split; intros * H; cbn in H; by rewrite lookup_empty in H. Qed.

Lemma registry_ok_frame w w' :
  procs w' = procs w -> ffmpegProcesses w' = ffmpegProcesses w ->
  registry_ok w -> registry_ok w'.
Proof. intros Hp Hf. unfold registry_ok. by rewrite Hp, Hf. Qed.

Lemma registry_ok_stop d w : registry_ok w -> registry_ok (stopWebcam d w).
Proof.
  intros [Href Hinj].
  destruct (ffmpegProcesses w !! d) as [pid|] eqn:Hd.
  2:{ by rewrite (stopWebcam_absent _ _ Hd). }
  rewrite (stopWebcam_present _ _ _ Hd).
  split; cbn [ffmpegProcesses procs with_ffmpegProcesses].
  - intros d' pid' H'. apply lookup_delete_Some in H' as [Hne H'].
    destruct (Href _ _ H') as (p & Hp & Hk). exists p. split; [|done].
    rewrite kill_procs_other; [done|].
    intros ->. by apply Hne, (Hinj d d' pid).
  - intros d1 d2 pid' H1 H2.
    apply lookup_delete_Some in H1 as [_ H1].
    apply lookup_delete_Some in H2 as [_ H2]. by apply (Hinj d1 d2 pid').
Qed.

Lemma registry_ok_spawned d command pending w :
  registry_ok w -> registry_ok (spawned d command pending w).
Proof.
  intros [Href Hinj]. unfold spawned, record_process. split; cbn.
  - intros d' pid' H'. destruct (decide (d = d')) as [->|Hne].
    + rewrite lookup_insert_eq in H'. injection H' as <-.
      exists (child command pending). split; [|done].
      by apply list_lookup_middle.
    + rewrite lookup_insert_ne in H' by done.
      destruct (Href _ _ H') as (p & Hp & Hk). exists p. split; [|done].
      by apply lookup_app_l_Some.
  - assert (Hfresh : forall d', ffmpegProcesses w !! d' <> Some (length (procs w))).
    { intros d' H'. destruct (Href _ _ H') as (p & Hp & _).
      apply lookup_lt_Some in Hp. lia. }
    intros d1 d2 pid' H1 H2.
    destruct (decide (d1 = d)) as [->|Hne1]; destruct (decide (d2 = d)) as [->|Hne2];
      try done.
    + rewrite lookup_insert_eq in H1. injection H1 as <-.
      rewrite lookup_insert_ne in H2 by done. by destruct (Hfresh d2).
    + rewrite lookup_insert_eq in H2. injection H2 as <-.
      rewrite lookup_insert_ne in H1 by done. by destruct (Hfresh d1).
    + rewrite lookup_insert_ne in H1, H2 by done. by apply (Hinj d1 d2 pid').
Qed.

Lemma registry_ok_cleanup w : registry_ok (WebcamManager_cleanup w).
Proof.
  split; intros * H; unfold WebcamManager_cleanup in H; cbn in H;
    by rewrite lookup_empty in H.
Qed.

Lemma registry_ok_emits prep w :
  registry_ok w -> registry_ok (foldl (fun acc ev => emit ev acc) w prep).
Proof. apply registry_ok_frame; [apply emits_procs|apply emits_ffmpegProcesses]. Qed.

Lemma registry_ok_start env p w :
  registry_ok w -> registry_ok (startWebcam env p w).2.
Proof.
  intros Hok. destruct (startWebcam_shape env p w) as (prep & _ & Hshape).
  cbn zeta in Hshape.
  pose proof (registry_ok_emits prep _ (registry_ok_stop
                (or_default (sp_device p) default_device) w Hok)) as Hok1.
  destruct Hshape as [[_ ->]|(command & pending & ->)]; [done|].
  by apply registry_ok_spawned.
Qed.

Lemma registry_ok_op env w op : registry_ok w -> registry_ok (run_op env w op).
Proof.
  destruct op; cbn.
  - apply registry_ok_start.
  - apply registry_ok_stop.
  - intros _. apply registry_ok_cleanup.
Qed.

Lemma registry_ok_ops env ops w : registry_ok w -> registry_ok (run_ops env ops w).
Proof.
  revert w. induction ops as [|op ops IH]; intros w Hok; [done|].
  cbn. by apply IH, registry_ok_op.
Qed.

(** X1. Whatever sequence of [startWebcam], [stopWebcam] and
    [cleanup] calls is made on a fresh manager, one after the other
    and in any environment: every registry entry refers to a process
    object whose [killed] flag is still false, and no process is
    recorded under two devices. *)
Theorem registry_entries_are_unsignalled_and_distinct (env : Env)
    (ops : list WebcamOp) :
  registry_ok (run_ops env ops empty_world).
Proof. apply registry_ok_ops, registry_ok_empty. Qed.

Lemma registry_ok_streaming env d w :
  registry_ok w ->
  st_streaming (getStatus env d w) = bool_decide (is_Some (ffmpegProcesses w !! d)).
Proof.
  intros [Href _]. unfold getStatus. cbn.
  destruct (ffmpegProcesses w !! d) as [pid|] eqn:Hd.
  - by destruct (Href _ _ Hd) as (p & -> & ->).
  - done.
Qed.

(** X2. After any sequence of manager calls on a fresh manager,
    [getStatus] reports [streaming] for a device exactly when the
    registry has an entry for it, and the mode is ["active"] exactly
    then: the [killed] test of [getStatus] never decides anything. *)
Theorem streaming_iff_recorded (env : Env) (ops : list WebcamOp) (d : string) :
  st_streaming (getStatus env d (run_ops env ops empty_world))
    = bool_decide (is_Some (ffmpegProcesses (run_ops env ops empty_world) !! d))
  /\ st_mode (getStatus env d (run_ops env ops empty_world))
     = (if bool_decide (is_Some (ffmpegProcesses (run_ops env ops empty_world) !! d))
        then Some "active" else None).
Proof.
  pose proof (registry_ok_streaming env d _
                (registry_ok_ops env ops _ registry_ok_empty)) as H.
  split; [done|]. unfold getStatus in *. cbn in *. by rewrite H.
Qed.

(** ** Calls on one device leave the others alone *)

Lemma getStatus_frame env d w w' :
  ffmpegProcesses w' !! d = ffmpegProcesses w !! d ->
  (forall pid, ffmpegProcesses w !! d = Some pid ->
     cp_killed <$> procs w' !! pid = cp_killed <$> procs w !! pid) ->
  getStatus env d w' = getStatus env d w.
Proof.
  intros Hf Hp. unfold getStatus. rewrite Hf.
  destruct (ffmpegProcesses w !! d) as [pid|]; [|done].
  specialize (Hp pid eq_refl).
  destruct (procs w' !! pid), (procs w !! pid); cbn in Hp; try done.
  by injection Hp as ->.
Qed.

Lemma getStatus_stop_other env d d' w :
  registry_ok w -> d' <> d ->
  getStatus env d' (stopWebcam d w) = getStatus env d' w.
Proof.
  intros [Href Hinj] Hne.
  destruct (ffmpegProcesses w !! d) as [pid|] eqn:Hd.
  2:{ by rewrite (stopWebcam_absent _ _ Hd). }
  rewrite (stopWebcam_present _ _ _ Hd).
  apply getStatus_frame; cbn [ffmpegProcesses procs with_ffmpegProcesses].
  - by apply lookup_delete_ne.
  - intros pid' H'. rewrite kill_procs_other; [done|].
    intros ->. by apply Hne, (Hinj d' d pid).
Qed.

Lemma getStatus_emits env d prep w :
  getStatus env d (foldl (fun acc ev => emit ev acc) w prep) = getStatus env d w.
Proof.
  apply getStatus_frame; [by rewrite emits_ffmpegProcesses|].
  intros. by rewrite emits_procs.
Qed.

Lemma getStatus_spawned_other env d d' command pending w :
  registry_ok w -> d' <> d ->
  getStatus env d' (spawned d command pending w) = getStatus env d' w.
Proof.
  intros [Href _] Hne. apply getStatus_frame; cbn.
  - by apply lookup_insert_ne.
  - intros pid' H'. destruct (Href _ _ H') as (p & Hp & _).
    by rewrite (lookup_app_l_Some _ _ _ _ Hp), Hp.
Qed.

Lemma getStatus_start_other env p d' w :
  registry_ok w -> d' <> or_default (sp_device p) default_device ->
  getStatus env d' (startWebcam env p w).2 = getStatus env d' w.
Proof.
  intros Hok Hne. destruct (startWebcam_shape env p w) as (prep & _ & Hshape).
  cbn zeta in Hshape.
  pose proof (registry_ok_emits prep _ (registry_ok_stop
                (or_default (sp_device p) default_device) w Hok)) as Hok1.
  destruct Hshape as [[_ ->]|(command & pending & ->)]; cbn [snd].
  - by rewrite getStatus_emits, getStatus_stop_other.
  - by rewrite getStatus_spawned_other, getStatus_emits, getStatus_stop_other.
Qed.

(** X3. On a manager reached by any sequence of calls, a
    [startWebcam] or a [stopWebcam] on one device does not change what
    [getStatus] reports for any other device. *)
Theorem other_devices_keep_their_status (env : Env) (ops : list WebcamOp)
    (op : WebcamOp) (d d' : string) :
  op_device op = Some d ->
  d' <> d ->
  getStatus env d' (run_op env (run_ops env ops empty_world) op)
    = getStatus env d' (run_ops env ops empty_world).
Proof.
  intros Hop Hne.
  pose proof (registry_ok_ops env ops _ registry_ok_empty) as Hok.
  destruct op as [p|device|]; cbn in *; [| |done].
  - injection Hop as <-. by apply getStatus_start_other.
  - injection Hop as <-. by apply getStatus_stop_other.
Qed.

Lemma other_devices_keep_their_status_witness :
  getStatus quiet "dev1"
    (run_op quiet (run_ops quiet [OpStart color_blue; OpStart pattern_dev1] empty_world)
       (OpStop "dev0"))
  = getStatus quiet "dev1"
      (run_ops quiet [OpStart color_blue; OpStart pattern_dev1] empty_world).
Proof.
  apply (other_devices_keep_their_status quiet [OpStart color_blue; OpStart pattern_dev1]
           (OpStop "dev0") "dev0" "dev1"); [reflexivity|discriminate].
Defined.

(** ** No process is forgotten by calls made one after the other *)

Lemma no_orphans_empty : no_orphans empty_world.
Proof. intros pid p H. cbn in H. by rewrite lookup_nil in H. Qed.

Lemma no_orphans_frame w w' :
  procs w' = procs w -> ffmpegProcesses w' = ffmpegProcesses w ->
  no_orphans w -> no_orphans w'.
Proof. intros Hp Hf. unfold no_orphans. by rewrite Hp, Hf. Qed.

Lemma all_running_empty : all_running empty_world.
Proof. intros pid p H. cbn in H. by rewrite lookup_nil in H. Qed.

Lemma all_running_frame w w' :
  procs w' = procs w -> all_running w -> all_running w'.
Proof. intros Hp. unfold all_running. by rewrite Hp. Qed.

Lemma all_running_running w pid p :
  all_running w -> procs w !! pid = Some p -> running pid w = true.
Proof. intros Hall Hp. unfold running. by rewrite Hp, (Hall _ _ Hp). Qed.

Lemma all_running_kill pid sig w : all_running w -> all_running (kill pid sig w).
Proof.
  intros Hall pid' p' Hp'. rewrite kill_procs in Hp'.
  destruct (running pid w); [|by apply (Hall pid')].
  destruct (decide (pid' = pid)) as [->|Hne].
  - rewrite list_lookup_alter_eq in Hp'.
    destruct (procs w !! pid) as [p|] eqn:Hp; [|done].
    injection Hp' as <-. cbn. by apply (Hall pid).
  - rewrite list_lookup_alter_ne in Hp' by done. by apply (Hall pid').
Qed.

Lemma all_running_stop d w : all_running w -> all_running (stopWebcam d w).
Proof.
  intros Hall. destruct (ffmpegProcesses w !! d) as [pid|] eqn:Hd.
  2:{ by rewrite (stopWebcam_absent _ _ Hd). }
  rewrite (stopWebcam_present _ _ _ Hd).
  apply (all_running_frame (kill pid "SIGTERM" w)); [done|].
  by apply all_running_kill.
Qed.

Lemma all_running_spawned d command pending w :
  all_running w -> all_running (spawned d command pending w).
Proof.
  intros Hall pid' p' Hp'. cbn in Hp'.
  apply lookup_app_Some in Hp' as [Hp'|[_ Hp']]; [by apply (Hall pid')|].
  apply list_lookup_singleton_Some in Hp' as [_ <-]. done.
Qed.

Lemma all_running_kill_all (l : list (string * nat)) w :
  all_running w ->
  all_running (foldl (fun acc entry => kill entry.2 "SIGTERM" acc) w l).
Proof.
  revert w. induction l as [|e l IH]; intros w Hall; [done|].
  cbn. by apply IH, all_running_kill.
Qed.

Lemma all_running_cleanup w : all_running w -> all_running (WebcamManager_cleanup w).
Proof.
  intros Hall. unfold WebcamManager_cleanup.
  apply (all_running_frame
           (foldl (fun acc entry => kill entry.2 "SIGTERM" acc) w
                  (map_to_list (ffmpegProcesses w)))); [done|].
  by apply all_running_kill_all.
Qed.

Lemma all_running_start env p w : all_running w -> all_running (startWebcam env p w).2.
Proof.
  intros Hall. destruct (startWebcam_shape env p w) as (prep & _ & Hshape).
  cbn zeta in Hshape.
  set (w1 := foldl (fun acc ev => emit ev acc)
               (stopWebcam (or_default (sp_device p) default_device) w) prep) in *.
  assert (Hall1 : all_running w1).
  { apply (all_running_frame (stopWebcam (or_default (sp_device p) default_device) w));
      [apply emits_procs|by apply all_running_stop]. }
  destruct Hshape as [[_ ->]|(command & pending & ->)]; [done|].
  by apply all_running_spawned.
Qed.

Lemma all_running_ops env ops w : all_running w -> all_running (run_ops env ops w).
Proof.
  revert w. induction ops as [|op ops IH]; intros w Hall; [done|].
  cbn. apply IH. destruct op; cbn.
  - by apply all_running_start.
  - by apply all_running_stop.
  - by apply all_running_cleanup.
Qed.

Lemma no_orphans_stop d w :
  all_running w -> no_orphans w -> no_orphans (stopWebcam d w).
Proof.
  intros Hall Hno.
  destruct (ffmpegProcesses w !! d) as [pid|] eqn:Hd.
  2:{ by rewrite (stopWebcam_absent _ _ Hd). }
  rewrite (stopWebcam_present _ _ _ Hd). intros pid' p' Hp'.
  cbn [ffmpegProcesses procs with_ffmpegProcesses] in *.
  destruct (decide (pid' = pid)) as [->|Hne].
  - rewrite kill_procs in Hp'.
    destruct (procs w !! pid) as [p|] eqn:Hp.
    + rewrite (all_running_running _ _ _ Hall Hp), list_lookup_alter_eq, Hp in Hp'.
      injection Hp' as <-. by left.
    + destruct (running pid w); [rewrite list_lookup_alter_eq in Hp'|];
        by rewrite Hp in Hp'.
  - rewrite kill_procs_other in Hp' by done.
    destruct (Hno _ _ Hp') as [Hk|(d' & Hd')]; [by left|]. right.
    exists d'. rewrite lookup_delete_ne; [done|]. congruence.
Qed.

Lemma no_orphans_spawned d command pending w :
  ffmpegProcesses w !! d = None ->
  no_orphans w -> no_orphans (spawned d command pending w).
Proof.
  intros Hd Hno pid' p' Hp'. cbn in *.
  destruct (decide (pid' < length (procs w))) as [Hlt|Hge].
  - rewrite lookup_app_l in Hp' by done.
    destruct (Hno _ _ Hp') as [Hk|(d' & Hd')]; [by left|]. right.
    exists d'. rewrite lookup_insert_ne; [done|]. congruence.
  - right. exists d. apply lookup_lt_Some in Hp'.
    rewrite length_app in Hp'. cbn in Hp'.
    replace pid' with (length (procs w)) by lia. apply lookup_insert_eq.
Qed.

Lemma kill_all_procs (l : list (string * nat)) w pid :
  procs (foldl (fun acc entry => kill entry.2 "SIGTERM" acc) w l) !! pid
  = (fun p => if bool_decide (pid ∈ l.*2) && running pid w then mark_killed p else p)
      <$> procs w !! pid.
Proof.
  revert w. induction l as [|e l IH]; intros w; cbn [foldl fmap list_fmap].
  - by destruct (procs w !! pid).
  - rewrite IH, kill_running. destruct (decide (pid = e.2)) as [->|Hne].
    + rewrite (bool_decide_eq_true_2 (e.2 ∈ e.2 :: l.*2)) by apply list_elem_of_here.
      rewrite kill_procs. destruct (running e.2 w) eqn:Hr.
      * rewrite list_lookup_alter_eq.
        destruct (procs w !! e.2); [|done]. cbn. rewrite andb_true_r.
        by destruct (bool_decide (e.2 ∈ l.*2)).
      * destruct (procs w !! e.2); [|done]. cbn. by rewrite andb_false_r.
    + rewrite kill_procs_other by done.
      destruct (procs w !! pid); [|done]. cbn.
      rewrite (bool_decide_ext (pid ∈ e.2 :: l.*2) (pid ∈ l.*2)); [done|].
      rewrite elem_of_cons. split; [by intros [?|?]|by right].
Qed.

Lemma no_orphans_cleanup w :
  all_running w -> no_orphans w -> no_orphans (WebcamManager_cleanup w).
Proof.
  intros Hall Hno pid p' Hp'. unfold WebcamManager_cleanup in *.
  cbn [ffmpegProcesses procs with_ffmpegProcesses] in *.
  rewrite kill_all_procs in Hp'.
  destruct (procs w !! pid) as [p|] eqn:Hp; [|done]. injection Hp' as <-.
  rewrite (all_running_running _ _ _ Hall Hp), andb_true_r.
  left. case_bool_decide as Hin; [done|].
  destruct (Hno _ _ Hp) as [Hk|(d & Hd)]; [done|].
  destruct Hin. apply list_elem_of_fmap. exists (d, pid). split; [done|].
  by apply elem_of_map_to_list.
Qed.

Lemma no_orphans_start env p w :
  all_running w -> no_orphans w -> no_orphans (startWebcam env p w).2.
Proof.
  intros Hall Hno. destruct (startWebcam_shape env p w) as (prep & _ & Hshape).
  cbn zeta in Hshape.
  set (w1 := foldl (fun acc ev => emit ev acc)
               (stopWebcam (or_default (sp_device p) default_device) w) prep) in *.
  assert (Hno1 : no_orphans w1).
  { apply (no_orphans_frame (stopWebcam (or_default (sp_device p) default_device) w));
      [apply emits_procs|apply emits_ffmpegProcesses|by apply no_orphans_stop]. }
  destruct Hshape as [[_ ->]|(command & pending & ->)]; [done|].
  apply no_orphans_spawned; [|done].
  unfold w1. rewrite emits_ffmpegProcesses. apply stopWebcam_lookup.
Qed.

Lemma no_orphans_ops env ops w :
  all_running w -> no_orphans w -> no_orphans (run_ops env ops w).
Proof.
  revert w. induction ops as [|op ops IH]; intros w Hall Hno; [done|].
  cbn. apply IH.
  - destruct op; cbn;
      [by apply all_running_start|by apply all_running_stop|by apply all_running_cleanup].
  - destruct op; cbn.
    + by apply no_orphans_start.
    + by apply no_orphans_stop.
    + by apply no_orphans_cleanup.
Qed.

(** X4. Whatever sequence of [startWebcam], [stopWebcam] and
    [cleanup] calls is made on a fresh manager, each call after the one
    before has returned: every process that was ever spawned is either
    still recorded in the registry or has been sent a signal. *)
Theorem sequential_calls_forget_no_process (env : Env) (ops : list WebcamOp) :
  no_orphans (run_ops env ops empty_world).
Proof. apply no_orphans_ops; [apply all_running_empty|apply no_orphans_empty]. Qed.

(** ** [cleanup] of the webcam manager *)

(** X5. [WebcamManager.cleanup] empties the registry, so that no
    device is reported as streaming afterwards.  It calls [kill] on
    exactly the processes that were recorded: a recorded process that
    is still running has its [killed] flag raised, a recorded process
    that has already exited stays as it was, and so does every process
    object that was not recorded.  A second [cleanup] changes nothing
    more. *)
Theorem cleanup_kills_exactly_the_recorded (w : World) :
  ffmpegProcesses (WebcamManager_cleanup w) = ∅
  /\ (forall env d, st_streaming (getStatus env d (WebcamManager_cleanup w)) = false)
  /\ (forall d pid, ffmpegProcesses w !! d = Some pid ->
        if running pid w
        then procs (WebcamManager_cleanup w) !! pid = mark_killed <$> procs w !! pid
        else procs (WebcamManager_cleanup w) !! pid = procs w !! pid)
  /\ (forall pid, (forall d, ffmpegProcesses w !! d <> Some pid) ->
        procs (WebcamManager_cleanup w) !! pid = procs w !! pid)
  /\ WebcamManager_cleanup (WebcamManager_cleanup w) = WebcamManager_cleanup w.
Proof.
  split_and!.
  - done.
  - intros env d. unfold getStatus, WebcamManager_cleanup. cbn.
    by rewrite lookup_empty.
  - intros d pid Hd. unfold WebcamManager_cleanup.
    cbn [procs with_ffmpegProcesses]. rewrite kill_all_procs.
    rewrite bool_decide_eq_true_2.
    + destruct (running pid w); [done|]. by destruct (procs w !! pid).
    + apply list_elem_of_fmap. exists (d, pid). split; [done|].
      by apply elem_of_map_to_list.
  - intros pid Hnone. unfold WebcamManager_cleanup.
    cbn [procs with_ffmpegProcesses]. rewrite kill_all_procs.
    rewrite bool_decide_eq_false_2; [by destruct (procs w !! pid)|].
    intros Hin. apply list_elem_of_fmap in Hin as ([d pid'] & -> & Hin).
    apply elem_of_map_to_list in Hin. by destruct (Hnone d).
  - unfold WebcamManager_cleanup at 1. cbn [ffmpegProcesses WebcamManager_cleanup with_ffmpegProcesses].
    by rewrite map_to_list_empty.
Qed.

(** The two kinds of recorded process under [cleanup]: the running
    process of [one_stream] is signalled, the exited one of
    [stale_stream] is not. *)
Example cleanup_running_and_stale_stream :
  log (WebcamManager_cleanup one_stream) = log one_stream ++ [EvSignal 0 "SIGTERM"]
  /\ cp_killed <$> procs (WebcamManager_cleanup one_stream) !! 0 = Some true
  /\ log (WebcamManager_cleanup stale_stream) = log stale_stream
  /\ cp_killed <$> procs (WebcamManager_cleanup stale_stream) !! 0 = Some false.
Proof. split_and!; by vm_compute. Qed.

(** ** What a start leaves behind *)

(** X6. When [startWebcam] has finished, the registry has an entry
    for the device exactly when the call returned a success result:
    after a failure result or a thrown error the device has no entry,
    also when it had one before the call. *)
Theorem device_recorded_iff_start_succeeded (env : Env) (p : StartParams) (w : World) :
  is_Some (ffmpegProcesses (startWebcam env p w).2
             !! or_default (sp_device p) default_device)
  <-> exists r, (startWebcam env p w).1 = Returned r /\ success r = true.
Proof.
  destruct (startWebcam_shape env p w) as (prep & _ & Hshape). cbn zeta in Hshape.
  destruct Hshape as [[Hns Hw]|(command & pending & Hrun)].
  - rewrite Hw, emits_ffmpegProcesses, stopWebcam_lookup. split.
    + by intros [? ?].
    + intros (r & Hr & Hs). rewrite Hr in Hns. cbn in Hns. congruence.
  - rewrite Hrun. cbn. rewrite lookup_insert_eq. split; [|done].
    intros _. by eexists.
Qed.

(** X7. In text mode, when the [convert] command that renders the
    text fails, [startWebcam] does not return a failure result: the
    error leaves [startWebcam] and the [start_webcam] tool call as a
    thrown error.  By then the stream that was running on the device
    has been stopped, and nothing has been spawned or recorded. *)
Theorem text_mode_convert_failure_is_thrown (env : Env) (p : StartParams)
    (w : World) (e : string) :
  sp_mode p = Some "text" ->
  exec_error env (convert_command env (text_of p)) = Some e ->
  let device := or_default (sp_device p) default_device in
  call_tool env (CallStartWebcam (Some p)) w
    = (Threw (Error e),
       emit (EvExec (convert_command env (text_of p))) (stopWebcam device w))
  /\ ffmpegProcesses (call_tool env (CallStartWebcam (Some p)) w).2 !! device = None
  /\ length (procs (call_tool env (CallStartWebcam (Some p)) w).2) = length (procs w).
Proof.
  intros Hm He device.
  assert (Hrun : call_tool env (CallStartWebcam (Some p)) w
            = (Threw (Error e),
               emit (EvExec (convert_command env (text_of p))) (stopWebcam device w))).
  { unfold call_tool, try_catch, start_webcam, bind.
    rewrite startWebcam_text by (by rewrite Hm). cbn zeta. by rewrite He. }
  rewrite Hrun. split_and!; [done| |]; cbn.
  - apply stopWebcam_lookup.
  - apply stopWebcam_procs_length.
Qed.

Lemma text_mode_convert_failure_is_thrown_witness :
  call_tool no_shell (CallStartWebcam (Some text_hello)) one_stream
    = (Threw (Error "command not found"),
       emit (EvExec (convert_command no_shell (text_of text_hello)))
         (stopWebcam "dev0" one_stream))
  /\ ffmpegProcesses (call_tool no_shell (CallStartWebcam (Some text_hello)) one_stream).2
       !! "dev0" = None
  /\ length (procs (call_tool no_shell (CallStartWebcam (Some text_hello)) one_stream).2)
     = length (procs one_stream).
Proof.
  apply (text_mode_convert_failure_is_thrown no_shell text_hello one_stream
           "command not found"); reflexivity.
Defined.

Lemma direct_command_shape m device p :
  m <> text ->
  head (direct_command m device p) = Some "ffmpeg"
  /\ last (direct_command m device p) = Some device.
Proof. by destruct m. Qed.

(** X8. After a successful [startWebcam], the process recorded for
    the device is the one process object the call has added, it has
    not been signalled, and its command line is an [ffmpeg] command
    whose last argument is the device path. *)
Theorem started_process_is_ffmpeg_on_the_device (env : Env) (p : StartParams)
    (w w' : World) (r : WebcamResult) :
  startWebcam env p w = (Returned r, w') ->
  success r = true ->
  let device := or_default (sp_device p) default_device in
  exists c,
    ffmpegProcesses w' !! device = Some (length (procs w))
    /\ procs w' !! length (procs w) = Some c
    /\ length (procs w') = S (length (procs w))
    /\ cp_killed c = false
    /\ head (cp_argv c) = Some "ffmpeg"
    /\ last (cp_argv c) = Some device.
Proof.
  intros Hrun Hok device.
  assert (Hlen : length (procs (stopWebcam device w)) = length (procs w))
    by apply stopWebcam_procs_length.
  destruct (parse_mode (sp_mode p)) as [m|] eqn:Hm.
  - destruct (decide (m = text)) as [->|Hnt].
    + rewrite (startWebcam_text _ _ _ Hm) in Hrun. cbn zeta in Hrun. fold device in Hrun.
      destruct (exec_error env (convert_command env (text_of p))); [done|].
      rewrite launch_encoder_spec in Hrun.
      destruct (spawn_result env _) as [e|pending]; injection Hrun as <- <-; [done|].
      exists (child (text_command device (text_image_path env)) pending).
      cbn. rewrite length_app, Hlen, lookup_insert_eq. cbn.
      split_and!; try done; [|lia].
      by apply list_lookup_middle.
    + rewrite (startWebcam_direct _ _ _ _ Hm Hnt) in Hrun. fold device in Hrun.
      rewrite launch_encoder_spec in Hrun.
      destruct (spawn_result env _) as [e|pending]; injection Hrun as <- <-; [done|].
      exists (child (direct_command m device p) pending).
      cbn. rewrite length_app, Hlen, lookup_insert_eq. cbn.
      destruct (direct_command_shape m device p Hnt) as [Hh Hl].
      split_and!; try done; [|lia].
      by apply list_lookup_middle.
  - rewrite (startWebcam_unknown _ _ _ Hm) in Hrun. injection Hrun as <- <-. done.
Qed.

Lemma started_process_is_ffmpeg_on_the_device_witness :
  exists c,
    ffmpegProcesses (startWebcam quiet pattern_smpte one_stream).2 !! "dev0"
    = Some (length (procs one_stream))
    /\ procs (startWebcam quiet pattern_smpte one_stream).2 !! length (procs one_stream)
       = Some c
    /\ length (procs (startWebcam quiet pattern_smpte one_stream).2)
       = S (length (procs one_stream))
    /\ cp_killed c = false
    /\ head (cp_argv c) = Some "ffmpeg"
    /\ last (cp_argv c) = Some "dev0".
Proof.
  apply (started_process_is_ffmpeg_on_the_device quiet pattern_smpte one_stream
           (startWebcam quiet pattern_smpte one_stream).2
           (started "dev0" pattern_smpte)); reflexivity.
Defined.

(** ** What the managers do not notice *)

Lemma outside_move_step env s a :
  outside_move a = true ->
  tasks (system_step env s a) = tasks s
  /\ browsers (world (system_step env s a)) = browsers (world s)
  /\ ffmpegProcesses (world (system_step env s a)) = ffmpegProcesses (world s)
  /\ (forall pid, cp_killed <$> procs (world (system_step env s a)) !! pid
                  = cp_killed <$> procs (world s) !! pid).
Proof.
  destruct a as [i|pid|b]; [done| |]; intros _; cbn; split_and!; try done.
  intros pid'. rewrite list_lookup_alter.
  case_decide as Heq; [|done]. rewrite Heq.
  by destruct (procs (world s) !! pid').
Qed.

(** X9. The outside world moving (encoder processes exiting on their
    own, browsers dying) changes nothing the managers look at: the
    pool and the registry keep their entries, and [getStatus] reports
    for every device what it reported before, so a stream whose
    process has exited is still reported as streaming. *)
Theorem exits_and_deaths_go_unnoticed (env : Env) (schedule : list Action)
    (s : System) :
  forallb outside_move schedule = true ->
  tasks (run_system env schedule s) = tasks s
  /\ browsers (world (run_system env schedule s)) = browsers (world s)
  /\ ffmpegProcesses (world (run_system env schedule s)) = ffmpegProcesses (world s)
  /\ (forall env' d, getStatus env' d (world (run_system env schedule s))
                     = getStatus env' d (world s)).
Proof.
  revert s. induction schedule as [|a schedule IH]; intros s Hall; [done|].
  cbn in Hall. apply andb_prop in Hall as [Ha Hall].
  destruct (outside_move_step env s a Ha) as (Ht & Hb & Hf & Hk).
  destruct (IH (system_step env s a) Hall) as (Ht' & Hb' & Hf' & Hs').
  change (run_system env (a :: schedule) s)
    with (run_system env schedule (system_step env s a)).
  rewrite Ht', Hb', Hf', Ht, Hb, Hf. split_and!; try done.
  intros env' d. rewrite Hs'. apply getStatus_frame; [by rewrite Hf|].
  intros; apply Hk.
Qed.

Lemma exits_and_deaths_go_unnoticed_witness :
  tasks (run_system quiet [ProcessExits 0; BrowserDies 0]
           {| world := busy_server; tasks := [] |}) = []
  /\ browsers (world (run_system quiet [ProcessExits 0; BrowserDies 0]
                        {| world := busy_server; tasks := [] |}))
     = browsers busy_server
  /\ ffmpegProcesses (world (run_system quiet [ProcessExits 0; BrowserDies 0]
                               {| world := busy_server; tasks := [] |}))
     = ffmpegProcesses busy_server
  /\ (forall env' d,
        getStatus env' d (world (run_system quiet [ProcessExits 0; BrowserDies 0]
                                   {| world := busy_server; tasks := [] |}))
        = getStatus env' d busy_server).
Proof.
  apply (exits_and_deaths_go_unnoticed quiet [ProcessExits 0; BrowserDies 0]
           {| world := busy_server; tasks := [] |}); reflexivity.
Defined.

(** ** Two starts in flight on one device *)

Lemma step_call_text env p w :
  sp_mode p = Some "text" ->
  step_start env (SW_Call p) w
  = (SW_AwaitConvert (or_default (sp_device p) default_device) p
       (convert_command env (text_of p)),
     emit (EvExec (convert_command env (text_of p)))
       (stopWebcam (or_default (sp_device p) default_device) w)).
Proof. intros Hm. cbn. by rewrite Hm. Qed.

Lemma start_try_child env device p command pending w :
  spawn_result env command = SpawnChild pending ->
  start_try env device p command w
  = (SW_AwaitTimer device p, spawned device command pending w).
Proof. intros Hs. unfold start_try, spawn. by rewrite Hs. Qed.

Lemma step_call_direct env p w m pending :
  parse_mode (sp_mode p) = Some m -> m <> text ->
  spawn_result env (direct_command m (or_default (sp_device p) default_device) p)
    = SpawnChild pending ->
  step_start env (SW_Call p) w
  = (SW_AwaitTimer (or_default (sp_device p) default_device) p,
     spawned (or_default (sp_device p) default_device)
       (direct_command m (or_default (sp_device p) default_device) p) pending
       (stopWebcam (or_default (sp_device p) default_device) w)).
Proof.
  intros Hm Hnt Hs. cbn. rewrite Hm.
  destruct m; try done; by apply start_try_child.
Qed.

Lemma spawn_gives_child env command :
  (forall c e, spawn_result env c <> SpawnThrows e) ->
  exists pending, spawn_result env command = SpawnChild pending.
Proof.
  intros Hno. destruct (spawn_result env command) as [e|pending] eqn:Hs.
  - by destruct (Hno command e).
  - by eexists.
Qed.

(** X10. On a manager reached by any sequence of calls, two
    [startWebcam] calls on the same device that overlap:
    the first, in text mode, is waiting for [convert] when the second,
    in another mode, is made.  The second spawns and records its
    process; the first then resumes, spawns its own and overwrites the
    entry.  The process of the second call is left running: it has not
    been signalled, and no registry entry refers to it any more, so
    neither [stopWebcam] nor [cleanup] will ever signal it. *)
Theorem overlapping_starts_forget_a_process (env : Env) (ops : list WebcamOp)
    (pt pd : StartParams) (m : Mode) :
  sp_mode pt = Some "text" ->
  parse_mode (sp_mode pd) = Some m ->
  m <> text ->
  or_default (sp_device pd) default_device = or_default (sp_device pt) default_device ->
  exec_error env (convert_command env (text_of pt)) = None ->
  (forall c e, spawn_result env c <> SpawnThrows e) ->
  let device := or_default (sp_device pt) default_device in
  let w := run_ops env ops empty_world in
  let s := run_system env [Resume 0; Resume 1; Resume 0]
             {| world := w;
                tasks := [StartWebcamTask (SW_Call pt);
                          StartWebcamTask (SW_Call pd)] |} in
  ffmpegProcesses (world s) !! device = Some (S (length (procs w)))
  /\ (exists c, procs (world s) !! length (procs w) = Some c
                /\ cp_killed c = false /\ last (cp_argv c) = Some device)
  /\ (forall d, ffmpegProcesses (world s) !! d <> Some (length (procs w)))
  /\ ~ no_orphans (world s).
Proof.
  intros Hmt Hmd Hnt Hdev Hexec Hspawn device w s.
  destruct (registry_ok_ops env ops _ registry_ok_empty) as [Href Hinj]. fold w in Href, Hinj.
  destruct (spawn_gives_child env (direct_command m device pd) Hspawn) as (q1 & Hs1).
  destruct (spawn_gives_child env (text_command device (text_image_path env)) Hspawn)
    as (q2 & Hs2).
  set (w1 := emit (EvExec (convert_command env (text_of pt))) (stopWebcam device w)).
  set (w2 := spawned device (direct_command m device pd) q1 (stopWebcam device w1)).
  set (w3 := spawned device (text_command device (text_image_path env)) q2 w2).
  assert (Hworld : world s = w3).
  { unfold s, run_system. cbn [foldl]. unfold system_step at 3. cbn [tasks world lookup list_lookup].
    unfold step_task. rewrite (step_call_text _ _ _ Hmt). fold device. fold w1.
    cbn [tasks world insert list_insert].
    unfold system_step at 2. cbn [tasks world lookup list_lookup].
    unfold step_task. rewrite (step_call_direct _ _ _ _ q1 Hmd Hnt); rewrite Hdev; [|done].
    fold device. fold w2. cbn [tasks world insert list_insert].
    unfold system_step. cbn [tasks world lookup list_lookup].
    unfold step_task. cbn [step_start]. rewrite Hexec.
    by rewrite (start_try_child _ _ _ _ q2 _ Hs2). }
  assert (Hl1 : length (procs (stopWebcam device w1)) = length (procs w)).
  { rewrite stopWebcam_procs_length. unfold w1. cbn. apply stopWebcam_procs_length. }
  assert (Hreg : ffmpegProcesses w3
            = <[device := S (length (procs w))]>
                (<[device := length (procs w)]> (ffmpegProcesses (stopWebcam device w)))).
  { unfold w3, w2. cbn. rewrite length_app, Hl1. cbn. rewrite Nat.add_1_r.
    f_equal. f_equal. unfold stopWebcam at 1.
    assert (Hnone : ffmpegProcesses w1 !! device = None) by apply stopWebcam_lookup.
    by rewrite Hnone. }
  assert (Hnot : forall d, ffmpegProcesses w3 !! d <> Some (length (procs w))).
  { intros d. rewrite Hreg. destruct (decide (d = device)) as [->|Hne].
    - rewrite lookup_insert_eq. intros [= H]. lia.
    - rewrite !lookup_insert_ne by done. intros Hd.
      assert (Hd' : ffmpegProcesses w !! d = Some (length (procs w))).
      { destruct (ffmpegProcesses w !! device) as [pid0|] eqn:Hdv.
        - rewrite (stopWebcam_present _ _ _ Hdv) in Hd.
          cbn [ffmpegProcesses with_ffmpegProcesses] in Hd.
          by apply lookup_delete_Some in Hd as [_ Hd].
        - by rewrite (stopWebcam_absent _ _ Hdv) in Hd. }
      destruct (Href _ _ Hd') as (c & Hc & _). apply lookup_lt_Some in Hc. lia. }
  assert (Hproc : procs w3 !! length (procs w)
            = Some (child (direct_command m device pd) q1)).
  { unfold w3, w2. cbn. rewrite <- Hl1. apply lookup_app_l_Some.
    by apply list_lookup_middle. }
  rewrite Hworld. split_and!.
  - rewrite Hreg. apply lookup_insert_eq.
  - eexists. split; [exact Hproc|]. split; [done|].
    by destruct (direct_command_shape m device pd Hnt).
  - done.
  - intros Hno. destruct (Hno _ _ Hproc) as [Hk|(d & Hd)]; [done|].
    by destruct (Hnot d).
Qed.

Lemma overlapping_starts_forget_a_process_witness :
  ffmpegProcesses
    (world (run_system quiet [Resume 0; Resume 1; Resume 0]
              {| world := run_ops quiet [OpStart color_blue] empty_world;
                 tasks := [StartWebcamTask (SW_Call text_hello);
                           StartWebcamTask (SW_Call pattern_smpte)] |}))
    !! "dev0"
  = Some (S (length (procs (run_ops quiet [OpStart color_blue] empty_world)))).
Proof.
  apply (overlapping_starts_forget_a_process quiet [OpStart color_blue]
           text_hello pattern_smpte pattern);
    [reflexivity|reflexivity|discriminate|reflexivity|reflexivity|discriminate].
Defined.

(** ** The webcam manager works on its own part of the world *)

Lemma extends_log_stop d w : extends_log webcam_event w (stopWebcam d w).
Proof.
  unfold stopWebcam. destruct (ffmpegProcesses w !! d) as [pid|].
  - cbn zeta. unfold extends_log. cbn [log with_ffmpegProcesses]. rewrite kill_log.
    eexists. split; [done|]. destruct (running pid w); by repeat constructor.
  - apply extends_log_refl.
Qed.

Lemma extends_log_spawned d command pending w :
  extends_log webcam_event w (spawned d command pending w).
Proof.
  exists [EvSpawn (length (procs w)) command; EvTimer 1000]. cbn.
  split; [by rewrite <- app_assoc|]. by repeat constructor.
Qed.

Lemma start_try_frame env device p command w :
  extends_log webcam_event w (start_try env device p command w).2
  /\ browsers (start_try env device p command w).2 = browsers w
  /\ engines (start_try env device p command w).2 = engines w
  /\ contexts (start_try env device p command w).2 = contexts w.
Proof.
  unfold start_try, spawn. destruct (spawn_result env command) as [e|pending]; cbn.
  - split_and!; try done. apply extends_log_refl.
  - split_and!; try done. apply (extends_log_spawned device command pending w).
Qed.

Lemma start_try_after_stop env device p command d w :
  extends_log webcam_event w (start_try env device p command (stopWebcam d w)).2
  /\ browsers (start_try env device p command (stopWebcam d w)).2 = browsers w
  /\ engines (start_try env device p command (stopWebcam d w)).2 = engines w
  /\ contexts (start_try env device p command (stopWebcam d w)).2 = contexts w.
Proof.
  destruct (start_try_frame env device p command (stopWebcam d w)) as (Hl & Hb & He & Hc).
  rewrite Hb, He, Hc, stopWebcam_browsers, stopWebcam_engines, stopWebcam_contexts.
  split_and!; try done.
  by apply (extends_log_trans _ _ (stopWebcam d w)); [apply extends_log_stop|].
Qed.

Lemma step_start_frame env t w :
  extends_log webcam_event w (step_start env t w).2
  /\ browsers (step_start env t w).2 = browsers w
  /\ engines (step_start env t w).2 = engines w
  /\ contexts (step_start env t w).2 = contexts w.
Proof.
  destruct t as [p|device p command|device p|r]; cbn.
  - destruct (parse_mode (sp_mode p)) as [[]|]; try apply start_try_after_stop; cbn.
    + rewrite stopWebcam_browsers, stopWebcam_engines, stopWebcam_contexts.
      split_and!; try done.
      apply (extends_log_trans _ _ (stopWebcam (or_default (sp_device p) default_device) w));
        [apply extends_log_stop|].
      by apply (extends_log_emit _ (EvExec (convert_command env (text_of p)))).
    + rewrite stopWebcam_browsers, stopWebcam_engines, stopWebcam_contexts.
      split_and!; try done. apply extends_log_stop.
  - destruct (exec_error env command); cbn.
    + split_and!; try done. apply extends_log_refl.
    + apply start_try_frame.
  - split_and!; try done. apply extends_log_refl.
  - split_and!; try done. apply extends_log_refl.
Qed.

(** X11. [startWebcam], run to its end, acts on the webcam side
    only: it leaves the browser pool, the browsers and their contexts
    as they were, and what it adds to the log are spawns, signals,
    shell commands and timers, never a launch or a context event. *)
Theorem startWebcam_leaves_browsers_alone (env : Env) (p : StartParams) (w : World) :
  browsers (startWebcam env p w).2 = browsers w
  /\ engines (startWebcam env p w).2 = engines w
  /\ contexts (startWebcam env p w).2 = contexts w
  /\ extends_log webcam_event w (startWebcam env p w).2.
Proof.
  destruct (startWebcam_shape env p w) as (prep & Hprep & Hshape). cbn zeta in Hshape.
  set (device := or_default (sp_device p) default_device) in *.
  set (w1 := foldl (fun acc ev => emit ev acc) (stopWebcam device w) prep) in *.
  assert (H1 : browsers w1 = browsers w /\ engines w1 = engines w
               /\ contexts w1 = contexts w /\ extends_log webcam_event w w1).
  { unfold w1. destruct Hprep as [->|(c & ->)]; cbn;
      rewrite stopWebcam_browsers, stopWebcam_engines, stopWebcam_contexts;
      split_and!; try done; [apply extends_log_stop|].
    apply (extends_log_trans _ _ (stopWebcam device w)); [apply extends_log_stop|].
    by apply (extends_log_emit _ (EvExec c)). }
  destruct H1 as (Hb & He & Hc & Hl).
  destruct Hshape as [[_ ->]|(command & pending & ->)]; [done|].
  cbn. split_and!; try done.
  apply (extends_log_trans _ _ w1); [done|apply extends_log_spawned].
Qed.

(** ** The pool under any schedule *)

Lemma browser_matches_mono w w' k b :
  (forall b0 br, engines w !! b0 = Some br ->
     exists br', engines w' !! b0 = Some br'
                 /\ br_engine br' = br_engine br /\ br_headless br' = br_headless br) ->
  browser_matches w k b -> browser_matches w' k b.
Proof.
  intros Hkeep (br & Hb & Hk). destruct (Hkeep _ _ Hb) as (br' & Hb' & He & Hh).
  exists br'. split; [done|]. by rewrite He, Hh.
Qed.

Lemma system_ok_mono w w' ts :
  browsers w' = browsers w ->
  (forall b0 br, engines w !! b0 = Some br ->
     exists br', engines w' !! b0 = Some br'
                 /\ br_engine br' = br_engine br /\ br_headless br' = br_headless br) ->
  system_ok {| world := w; tasks := ts |} ->
  system_ok {| world := w'; tasks := ts |}.
Proof.
  intros Hb Hkeep [Hpool Htasks]. split; cbn in *.
  - intros k b Hkb. rewrite Hb in Hkb.
    by apply (browser_matches_mono w), Hpool.
  - eapply Forall_impl; [exact Htasks|]. intros t Ht.
    destruct t as [[| |]|]; try done. by apply (browser_matches_mono w).
Qed.

Lemma engines_kept_same w w' :
  engines w' = engines w ->
  forall b0 br, engines w !! b0 = Some br ->
    exists br', engines w' !! b0 = Some br'
                /\ br_engine br' = br_engine br /\ br_headless br' = br_headless br.
Proof. intros -> b0 br H. by exists br. Qed.

Lemma engines_kept_app w l :
  forall b0 br, engines w !! b0 = Some br ->
    exists br', (engines w ++ l) !! b0 = Some br'
                /\ br_engine br' = br_engine br /\ br_headless br' = br_headless br.
Proof. intros b0 br H. exists br. split; [by apply lookup_app_l_Some|done]. Qed.

Lemma engines_kept_disconnect w b :
  forall b0 br, engines w !! b0 = Some br ->
    exists br', alter disconnect b (engines w) !! b0 = Some br'
                /\ br_engine br' = br_engine br /\ br_headless br' = br_headless br.
Proof.
  intros b0 br H. rewrite list_lookup_alter. case_decide as Heq.
  - subst. rewrite H. by exists (disconnect br).
  - by exists br.
Qed.

Lemma system_ok_step env s a : system_ok s -> system_ok (system_step env s a).
Proof.
  intros Hok. destruct s as [w ts]. destruct a as [i|pid|b]; cbn.
  2:{ apply (system_ok_mono w); [done|by apply engines_kept_same|done]. }
  2:{ apply (system_ok_mono w); [done|apply engines_kept_disconnect|done]. }
  destruct (ts !! i) as [t|] eqn:Hi; [|done].
  destruct t as [g|st]; cbn.
  - destruct g as [ty headless|k b|r]; cbn.
    + destruct (browsers w !! key ty headless) as [b|] eqn:Hk.
      { destruct Hok as [Hpool Htasks]. split; [done|]. by apply Forall_insert. }
      unfold launch. destruct (launch_error env (launch_engine ty) headless).
      { destruct Hok as [Hpool Htasks]. split; [done|]. by apply Forall_insert. }
      set (w1 := emit _ _).
      assert (Hok1 : system_ok {| world := w1; tasks := ts |}).
      { apply (system_ok_mono w); [done|apply engines_kept_app|done]. }
      destruct Hok1 as [Hpool Htasks]. split; [done|]. cbn.
      apply Forall_insert; [done|]. cbn.
      eexists. split; [by apply list_lookup_middle|].
      cbn. by rewrite launch_engine_id.
    + destruct Hok as [Hpool Htasks].
      assert (Hb : browser_matches w k b).
      { by apply (Forall_lookup_1 _ _ _ _ Htasks Hi). }
      split; cbn.
      * intros k' b' Hkb. unfold store_browser in *. cbn in Hkb.
        apply (browser_matches_mono w); [by apply engines_kept_same|].
        destruct (decide (k = k')) as [->|Hne].
        -- rewrite lookup_insert_eq in Hkb. by injection Hkb as <-.
        -- rewrite lookup_insert_ne in Hkb by done. by apply Hpool.
      * by apply Forall_insert.
    + destruct Hok as [Hpool Htasks]. split; [done|]. by apply Forall_insert.
  - destruct (step_start env st w) as [st' w'] eqn:Hst.
    destruct (step_start_frame env st w) as (_ & Hb & He & _).
    rewrite Hst in Hb, He. cbn in Hb, He.
    assert (Hok1 : system_ok {| world := w'; tasks := ts |}).
    { apply (system_ok_mono w); [done|by apply engines_kept_same|done]. }
    destruct Hok1 as [Hpool Htasks]. split; [done|]. by apply Forall_insert.
Qed.

Lemma system_ok_run env schedule s :
  system_ok s -> system_ok (run_system env schedule s).
Proof.
  revert s. induction schedule as [|a schedule IH]; intros s Hok; [done|].
  apply IH. by apply system_ok_step.
Qed.

Lemma system_ok_fresh calls :
  forallb fresh_call calls = true ->
  system_ok {| world := empty_world; tasks := calls |}.
Proof.
  intros Hf. split; cbn.
  - intros k b H. cbn in H. by rewrite lookup_empty in H.
  - apply Forall_forall. intros t Ht.
    rewrite forallb_forall in Hf. apply list_elem_of_In, Hf in Ht.
    by destruct t as [[| |]|[| | |]].
Qed.

(** X12. Start the server with any calls of [getBrowser] and
    [startWebcam] in flight, and let the event loop resume them in any
    order, with browsers dying and processes exiting in between.  In
    every world that is reached, each pool entry refers to a browser
    that exists and that was launched with the engine and the headless
    flag of its key: overlapping callers may replace an entry, but
    never with a browser of another configuration. *)
Theorem pooled_browser_has_the_configuration_of_its_key (env : Env)
    (schedule : list Action) (calls : list Task) (t : EngineType)
    (headless : bool) (b : nat) :
  forallb fresh_call calls = true ->
  browsers (world (run_system env schedule
                     {| world := empty_world; tasks := calls |}))
    !! key t headless = Some b ->
  exists br,
    engines (world (run_system env schedule
                      {| world := empty_world; tasks := calls |})) !! b = Some br
    /\ br_engine br = t /\ br_headless br = headless.
Proof.
  intros Hf Hb.
  destruct (system_ok_run env schedule _ (system_ok_fresh calls Hf)) as [Hpool _].
  destruct (Hpool _ _ Hb) as (br & Hbr & Hk).
  exists br. split; [done|]. by apply key_inj.
Qed.

Lemma pooled_browser_has_the_configuration_of_its_key_witness :
  exists br,
    engines (world (run_system quiet [Resume 0; Resume 1; Resume 0; Resume 1]
                      {| world := empty_world; tasks := tasks two_first_callers |}))
      !! 1 = Some br
    /\ br_engine br = chromium /\ br_headless br = true.
Proof.
  apply (pooled_browser_has_the_configuration_of_its_key quiet
           [Resume 0; Resume 1; Resume 0; Resume 1] (tasks two_first_callers)
           chromium true 1); reflexivity.
Defined.

(** ** One launch per call at most *)

Lemma calls_to_come_insert k ts i t t' :
  ts !! i = Some t ->
  calls_to_come k (<[i := t']> ts) + call_to_come k t
  = calls_to_come k ts + call_to_come k t'.
Proof.
  unfold calls_to_come. revert i. induction ts as [|t0 ts IH]; intros i Hi; [done|].
  destruct i as [|i].
  - cbn -[call_to_come] in *. injection Hi as ->. clear IH. lia.
  - specialize (IH i Hi).
    change (sum_list (call_to_come k <$> <[S i:=t']> (t0 :: ts)))
      with (call_to_come k t0 + sum_list (call_to_come k <$> <[i:=t']> ts)).
    change (sum_list (call_to_come k <$> t0 :: ts))
      with (call_to_come k t0 + sum_list (call_to_come k <$> ts)).
    lia.
Qed.

Lemma launch_count_extends k P w w' :
  (forall ev, P ev -> is_launch_of k ev = false) ->
  extends_log P w w' -> launch_count k w' = launch_count k w.
Proof.
  intros HP (evs & Hl & Hall). unfold launch_count. rewrite Hl, filter_app, length_app.
  assert (Hnil : filter (fun ev => is_launch_of k ev = true) evs = []).
  { clear Hl. induction Hall as [|ev evs Hev _ IH]; [done|].
    rewrite filter_cons_False; [exact IH|]. rewrite (HP _ Hev). discriminate. }
  rewrite Hnil. cbn. lia.
Qed.

Lemma launch_count_same_log k w w' :
  log w' = log w -> launch_count k w' = launch_count k w.
Proof. unfold launch_count. by intros ->. Qed.

Lemma launch_count_emit_other k ev w0 w :
  is_launch_of k ev = false -> log w0 = log w ->
  launch_count k (emit ev w0) = launch_count k w.
Proof.
  intros Hev Hl. unfold launch_count. cbn. rewrite Hl, filter_app, length_app.
  rewrite filter_cons_False; [cbn; lia|]. rewrite Hev. discriminate.
Qed.

Lemma launch_budget_step env k s a :
  launch_count k (world (system_step env s a))
    + calls_to_come k (tasks (system_step env s a))
  <= launch_count k (world s) + calls_to_come k (tasks s).
Proof.
  destruct s as [w ts]. destruct a as [i|pid|b]; unfold system_step; cbn [world tasks].
  2:{ by rewrite (launch_count_emit_other k _ _ w). }
  2:{ by rewrite (launch_count_same_log k w). }
  destruct (ts !! i) as [t|] eqn:Hi; [|done].
  destruct (step_task env t w) as [t' w'] eqn:Hstep. cbn [world tasks].
  pose proof (calls_to_come_insert k ts i t t' Hi) as Hins.
  enough (launch_count k w' + call_to_come k t' <= launch_count k w + call_to_come k t)
    by lia.
  clear Hins Hi. destruct t as [g|st]; cbn [step_task] in Hstep.
  - destruct (step_get env g w) as [g' w1] eqn:Hg. injection Hstep as <- <-.
    destruct g as [ty headless|k0 b|r]; cbn [step_get] in Hg.
    + destruct (browsers w !! key ty headless) as [b|].
      { injection Hg as <- <-. cbn [call_to_come]. case_bool_decide; lia. }
      unfold launch in Hg. rewrite launch_engine_id in Hg.
      destruct (launch_error env ty headless).
      { injection Hg as <- <-. cbn [call_to_come]. case_bool_decide; lia. }
      injection Hg as <- <-. cbn [call_to_come]. case_bool_decide as Hkey.
      * rewrite (launch_count_emit_launch k _ _ _ _ Hkey).
        change (launch_count k (with_engines _ w)) with (launch_count k w). lia.
      * rewrite (launch_count_emit_other k _ _ w); [lia| |done].
        cbn. by apply bool_decide_eq_false.
    + injection Hg as <- <-.
      change (launch_count k (store_browser _ _ w)) with (launch_count k w).
      cbn [call_to_come]. lia.
    + injection Hg as <- <-. cbn [call_to_come]. lia.
  - destruct (step_start env st w) as [st' w1] eqn:Hst. injection Hstep as <- <-.
    destruct (step_start_frame env st w) as (Hlog & _).
    rewrite Hst in Hlog. cbn [snd] in Hlog.
    rewrite (launch_count_extends k webcam_event w w1); [cbn [call_to_come]; lia|by intros []|done].
Qed.

Lemma launch_budget_run env k schedule s :
  launch_count k (world (run_system env schedule s))
    + calls_to_come k (tasks (run_system env schedule s))
  <= launch_count k (world s) + calls_to_come k (tasks s).
Proof.
  revert s. induction schedule as [|a schedule IH]; intros s; [done|].
  change (run_system env (a :: schedule) s)
    with (run_system env schedule (system_step env s a)).
  etrans; [apply IH|apply launch_budget_step].
Qed.

(** X13. In every run of the event loop, under any schedule, the
    engine launches made for a key are at most the [getBrowser] calls
    for that key that were waiting to run: a call launches at most
    once, and nothing else in the server launches an engine. *)
Theorem launches_bounded_by_calls (env : Env) (schedule : list Action)
    (s : System) (k : string) :
  launch_count k (world (run_system env schedule s))
  <= launch_count k (world s) + calls_to_come k (tasks s).
Proof. pose proof (launch_budget_run env k schedule s). lia. Qed.

(** ** Shutdown, when a [close] throws and when none does *)

Lemma close_each_threw env bs w e w' :
  close_each env bs w = (Threw e, w') ->
  browsers w' = browsers w
  /\ ffmpegProcesses w' = ffmpegProcesses w
  /\ procs w' = procs w
  /\ extends_log browser_event w w'.
Proof.
  revert w. induction bs as [|b bs IH]; intros w; cbn; [done|].
  unfold bind, close_browser. destruct (close_error env b).
  - intros [= <- <-]. split_and!; try done. apply extends_log_refl.
  - intros Hrest. destruct (IH _ Hrest) as (Hb & Hf & Hp & Hl).
    rewrite Hb, Hf, Hp. split_and!; try done.
    eapply extends_log_trans; [|exact Hl].
    by apply (extends_log_emit _ (EvCloseBrowser b)).
Qed.

Lemma close_each_throws env bs w b e0 :
  b ∈ bs -> close_error env b = Some e0 ->
  exists e w', close_each env bs w = (Threw e, w').
Proof.
  intros Hin He0. revert w. induction bs as [|b0 bs IH]; intros w.
  - by apply elem_of_nil in Hin.
  - cbn. unfold bind, close_browser.
    destruct (close_error env b0) as [e1|] eqn:H0; [by eexists _, _|].
    apply elem_of_cons in Hin as [->|Hin]; [congruence|]. by apply IH.
Qed.

(** X14. If [close] throws for one of the pooled browsers, the
    shutdown sequence ends with a thrown error at that point: the
    browser pool is not cleared, and [WebcamManager.cleanup] is never
    reached, so the registry keeps all its entries and no encoder
    process is signalled. *)
Theorem shutdown_stops_at_a_failing_close (env : Env) (w : World) (k : string)
    (b : nat) (e0 : string) :
  browsers w !! k = Some b ->
  close_error env b = Some e0 ->
  exists e w',
    shutdown env w = (Threw e, w')
    /\ browsers w' = browsers w
    /\ ffmpegProcesses w' = ffmpegProcesses w
    /\ procs w' = procs w
    /\ extends_log browser_event w w'.
Proof.
  intros Hk He0.
  assert (Hin : b ∈ (map_to_list (browsers w)).*2).
  { apply list_elem_of_fmap. exists (k, b). split; [done|].
    by apply elem_of_map_to_list. }
  destruct (close_each_throws env _ w b e0 Hin He0) as (e & w' & Hclose).
  exists e, w'. unfold shutdown, bind, BrowserManager_cleanup, bind.
  rewrite Hclose. split; [done|]. exact (close_each_threw _ _ _ _ _ Hclose).
Qed.

Lemma shutdown_stops_at_a_failing_close_witness :
  exists e w',
    shutdown stuck_close busy_server = (Threw e, w')
    /\ browsers w' = browsers busy_server
    /\ ffmpegProcesses w' = ffmpegProcesses busy_server
    /\ procs w' = procs busy_server
    /\ extends_log browser_event busy_server w'.
Proof.
  apply (shutdown_stops_at_a_failing_close stuck_close busy_server
           (key firefox false) 0 "Protocol error"); reflexivity.
Defined.

Lemma close_each_engines env bs w w' b :
  close_each env bs w = (Returned tt, w') ->
  engines w' !! b
  = (fun br => if bool_decide (b ∈ bs) then disconnect br else br) <$> engines w !! b.
Proof.
  revert w. induction bs as [|b0 bs IH]; intros w; cbn.
  - intros [= <-]. by destruct (engines w !! b).
  - unfold bind, close_browser. destruct (close_error env b0); [done|].
    intros Hrest. rewrite (IH _ Hrest). cbn.
    destruct (decide (b = b0)) as [->|Hne].
    + rewrite list_lookup_alter_eq.
      rewrite (bool_decide_eq_true_2 (b0 ∈ b0 :: bs)) by apply list_elem_of_here.
      destruct (engines w !! b0); [|done]. cbn. by case_bool_decide.
    + rewrite list_lookup_alter_ne by done.
      destruct (engines w !! b); [|done]. cbn.
      rewrite (bool_decide_ext (b ∈ b0 :: bs) (b ∈ bs)); [done|].
      rewrite elem_of_cons. split; [by intros [?|?]|by right].
Qed.

Lemma kill_all_engines (l : list (string * nat)) w :
  engines (foldl (fun acc entry => kill entry.2 "SIGTERM" acc) w l) = engines w.
Proof.
  revert w. induction l as [|e l IH]; intros w; [done|].
  cbn. by rewrite IH, kill_engines.
Qed.

(** X15. When the shutdown sequence runs to its end, the browsers it
    has closed are exactly the pooled ones: every browser that had a
    pool entry is disconnected, and a browser without a pool entry
    (one that lost the race of two overlapping first callers) is left
    as it was, still running. *)
Theorem shutdown_closes_exactly_the_pooled (env : Env) (w w' : World) :
  shutdown env w = (Returned tt, w') ->
  (forall k b, browsers w !! k = Some b ->
     engines w' !! b = disconnect <$> engines w !! b)
  /\ (forall b, (forall k, browsers w !! k <> Some b) ->
        engines w' !! b = engines w !! b).
Proof.
  unfold shutdown, bind, BrowserManager_cleanup, bind, effect.
  destruct (close_each env _ w) as [[[]|e] w1] eqn:Hclose; [|done].
  intros [= <-]. unfold WebcamManager_cleanup. cbn. rewrite kill_all_engines. cbn.
  split.
  - intros k b Hk. rewrite (close_each_engines _ _ _ _ b Hclose).
    rewrite bool_decide_eq_true_2; [done|].
    apply list_elem_of_fmap. exists (k, b). split; [done|].
    by apply elem_of_map_to_list.
  - intros b Hnone. rewrite (close_each_engines _ _ _ _ b Hclose).
    rewrite bool_decide_eq_false_2; [by destruct (engines w !! b)|].
    intros Hin. apply list_elem_of_fmap in Hin as ([k b'] & -> & Hin).
    apply elem_of_map_to_list in Hin. by destruct (Hnone k).
Qed.

Lemma shutdown_closes_exactly_the_pooled_witness :
  (forall k b, browsers raced !! k = Some b ->
     engines (shutdown quiet raced).2 !! b = disconnect <$> engines raced !! b)
  /\ (forall b, (forall k, browsers raced !! k <> Some b) ->
        engines (shutdown quiet raced).2 !! b = engines raced !! b).
Proof.
  apply (shutdown_closes_exactly_the_pooled quiet raced (shutdown quiet raced).2).
  reflexivity.
Defined.

(** ** Page tools: arguments and errors *)

(** X16. A page tool call whose arguments do not fit the schema of
    the tool (no [url], a [url] that is not a URL, a [browser] that
    is none of the three engine names, or another field that does not
    fit) is answered with an [InvalidParams] error, and the world is
    left untouched: no engine is launched, no context opened, nothing
    logged. *)
Theorem invalid_page_arguments_touch_nothing (env : Env) (tool : PageTool)
    (args : PageArgs) (w : World) :
  a_url args = None
  \/ (exists u, a_url args = Some u /\ is_url env u = false)
  \/ (exists s, a_browser args = Some s /\ parse_engine s = None)
  \/ a_rest_ok args = false ->
  exists msg,
    call_tool env (CallPage tool args) w = (Threw (McpError "InvalidParams" msg), w).
Proof.
  intros Hbad.
  assert (Hne : url_issues env args ++ browser_issues args ++ rest_issues args <> []).
  { unfold url_issues, browser_issues, rest_issues.
    destruct Hbad as [Hu|[(u & Hu & Hurl)|[(b & Hb & Hengine)|Hrest]]].
    - by rewrite Hu.
    - by rewrite Hu, Hurl.
    - rewrite Hb, Hengine. destruct (a_url args) as [u|]; [|done].
      by destruct (is_url env u).
    - rewrite Hrest. destruct (a_url args) as [u|]; [|done].
      destruct (is_url env u); [|done].
      destruct (a_browser args) as [b|]; [|done]. by destruct (parse_engine b). }
  unfold call_tool, try_catch, page_tool, bind, parse_args.
  destruct (url_issues env args ++ browser_issues args ++ rest_issues args); [done|].
  by eexists.
Qed.

Lemma invalid_page_arguments_touch_nothing_witness :
  exists msg,
    call_tool quiet (CallPage navigate_to_page bad_args) busy_server
    = (Threw (McpError "InvalidParams" msg), busy_server).
Proof.
  apply (invalid_page_arguments_touch_nothing quiet navigate_to_page bad_args busy_server).
  left. reflexivity.
Defined.

(** ** Contexts left open by failing calls *)

Lemma parse_args_ok env args w :
  url_issues env args ++ browser_issues args ++ rest_issues args = [] ->
  parse_args env args w
  = (Returned {| pp_url := default "" (a_url args);
                 pp_browser := default chromium (a_browser args ≫= parse_engine);
                 pp_headless := default true (a_headless args) |}, w).
Proof. intros H. unfold parse_args. by rewrite H. Qed.

Lemma open_contexts_opened_last w l b :
  contexts w = l ++ [{| cx_browser := b; cx_open := true |}] ->
  open_contexts w = open_contexts (with_contexts l w) ++ [length l].
Proof.
  intros H. unfold open_contexts. rewrite H. cbn.
  rewrite imap_app, filter_app, fmap_app. cbn. by rewrite Nat.add_0_r.
Qed.

Lemma failing_page_tool_once env tool args w e :
  url_issues env args ++ browser_issues args ++ rest_issues args = [] ->
  launch_error env (default chromium (a_browser args ≫= parse_engine))
    (default true (a_headless args)) = None ->
  page_result env tool (default "" (a_url args)) = Threw e ->
  entry_connected (key (default chromium (a_browser args ≫= parse_engine))
                     (default true (a_headless args))) w ->
  (page_tool env tool args w).1 = Threw e
  /\ open_contexts (page_tool env tool args w).2
     = open_contexts w ++ [length (contexts w)]
  /\ entry_connected (key (default chromium (a_browser args ≫= parse_engine))
                        (default true (a_headless args)))
       (page_tool env tool args w).2.
Proof.
  intros Hparse Hlaunch Hpage Hconn.
  set (t := default chromium (a_browser args ≫= parse_engine)) in *.
  set (h := default true (a_headless args)) in *.
  unfold page_tool, bind. rewrite (parse_args_ok _ _ _ Hparse). cbn [pp_browser pp_headless pp_url].
  fold t h.
  destruct (browsers w !! key t h) as [b|] eqn:Hk.
  - rewrite (getBrowser_stored _ _ _ _ _ Hk).
    destruct (Hconn b Hk) as (br & Hbr & Hc).
    unfold newContext. rewrite Hbr, Hc. unfold page_work. rewrite Hpage. cbn [fst snd].
    split_and!; [done| |].
    + by erewrite open_contexts_opened_last.
    + intros b' Hb'. cbn in Hb'. rewrite Hk in Hb'. injection Hb' as <-. by exists br.
  - rewrite (getBrowser_fresh _ _ _ _ Hk Hlaunch).
    unfold newContext. cbn [engines store_browser with_browsers emit with_engines].
    rewrite (list_lookup_middle (engines w) [] _ _ eq_refl). cbn [br_connected].
    unfold page_work. rewrite Hpage. cbn [fst snd].
    split_and!; [done| |].
    + by erewrite open_contexts_opened_last.
    + intros b' Hb'. cbn in Hb'. rewrite lookup_insert_eq in Hb'. injection Hb' as <-.
      eexists. split; [cbn; by apply list_lookup_middle|done].
Qed.

(** X18. A page tool call whose page work throws leaves the context
    it opened open, and the leak adds up: [n] such calls made one
    after the other, with valid arguments, an engine that launches and
    a pooled browser that stays connected, leave [n] more open contexts
    than there were. *)
Theorem failing_page_calls_leak_a_context_each (env : Env) (tool : PageTool)
    (args : PageArgs) (e : Exn) (n : nat) (w : World) :
  url_issues env args ++ browser_issues args ++ rest_issues args = [] ->
  launch_error env (default chromium (a_browser args ≫= parse_engine))
    (default true (a_headless args)) = None ->
  page_result env tool (default "" (a_url args)) = Threw e ->
  entry_connected (key (default chromium (a_browser args ≫= parse_engine))
                     (default true (a_headless args))) w ->
  length (open_contexts (page_tool_times env tool args n w))
  = length (open_contexts w) + n.
Proof.
  intros Hparse Hlaunch Hpage. revert w.
  induction n as [|n IH]; intros w Hconn; cbn [page_tool_times]; [lia|].
  destruct (failing_page_tool_once env tool args w e Hparse Hlaunch Hpage Hconn)
    as (_ & Hopen & Hconn').
  rewrite (IH _ Hconn'), Hopen, length_app. cbn. lia.
Qed.

Lemma failing_page_calls_leak_a_context_each_witness :
  length (open_contexts (page_tool_times unreachable navigate_to_page example_args 3
                           empty_world))
  = length (open_contexts empty_world) + 3.
Proof.
  apply (failing_page_calls_leak_a_context_each unreachable navigate_to_page
           example_args (Error "net::ERR_NAME_NOT_RESOLVED") 3 empty_world);
    [reflexivity|reflexivity|reflexivity|].
  intros b Hb. discriminate Hb.
Defined.

(** * The other webcam tools *)

(** ** Strings *)

Lemma append_assoc_str (a b c : string) : (a +:+ b) +:+ c = a +:+ (b +:+ c).
Proof.
  induction a as [|x a IH]; [done|].
  change (String x ((a +:+ b) +:+ c) = String x (a +:+ b +:+ c)). by rewrite IH.
Qed.

Lemma starts_with_spec s p :
  starts_with s p = true <-> exists post, s = p +:+ post.
Proof.
  revert s. induction p as [|a p IH]; intros s; cbn.
  - split; [intros _; by exists s|done].
  - destruct s as [|b s]; cbn.
    + split; [done|]. by intros (post & ?).
    + destruct (decide (a = b)) as [->|Hne].
      * rewrite IH. split; intros (post & Hs); exists post.
        -- by rewrite Hs.
        -- change (String b s = String b (p +:+ post)) in Hs. by injection Hs.
      * split; [done|]. intros (post & Hs).
        change (String b s = String a (p +:+ post)) in Hs. by injection Hs.
Qed.

Lemma includes_spec s needle :
  includes s needle = true <-> exists pre post, s = pre +:+ needle +:+ post.
Proof.
  induction s as [|a s IH]; cbn [includes]; rewrite orb_true_iff, starts_with_spec.
  - split.
    + intros [(post & Hs)|Hf]; [|done]. by exists "", post.
    + intros (pre & post & Hs). left. destruct pre; [by exists post|done].
  - rewrite IH. split.
    + intros [(post & Hs)|(pre & post & Hs)].
      * by exists "", post.
      * exists (String a pre), post. cbn. by rewrite Hs.
    + intros (pre & post & Hs). destruct pre as [|b pre].
      * left. by exists post.
      * right. exists pre, post.
        change (String a s = String b (pre +:+ needle +:+ post)) in Hs.
        by injection Hs.
Qed.

Lemma includes_app_r a b needle :
  includes b needle = true -> includes (a +:+ b) needle = true.
Proof.
  rewrite !includes_spec. intros (pre & post & ->).
  exists (a +:+ pre), post. by rewrite append_assoc_str.
Qed.

Lemma split_on_nonempty c s : split_on c s <> [].
Proof.
  destruct s as [|a s]; cbn; [done|].
  destruct (decide (a = c)); [done|]. by destruct (split_on c s).
Qed.

(** [split] and [join] undo each other. *)
Lemma join_split_on s : join nl (split_on newline s) = s.
Proof.
  induction s as [|a s IH]; [done|]. cbn [split_on].
  pose proof (split_on_nonempty newline s) as Hne0.
  destruct (split_on newline s) as [|l ls]; [done|].
  destruct (decide (a = newline)) as [->|Hne].
  - change (join nl ("" :: l :: ls)) with ("" +:+ nl +:+ join nl (l :: ls)).
    by rewrite IH.
  - rewrite <- IH. by destruct ls.
Qed.

(** ** [listDevices] *)

Lemma listDevices_shape h w :
  exists devices,
    listDevices h w = (Returned devices, emit (EvExec "v4l2-ctl --list-devices") w).
Proof.
  unfold listDevices, try_catch, bind, execAsync_stdout, ret.
  destruct (exec_error (host_env h) "v4l2-ctl --list-devices"); by eexists.
Qed.

(** X19. [listDevices] never throws.  When the listing command
    fails it returns the empty list; otherwise it returns, in their
    order, exactly those lines of the command's output that contain
    the text [/dev/video] somewhere (whole lines, with whatever
    surrounds the path); the other lines, such as the device names,
    are dropped. *)
Theorem listDevices_returns_the_device_lines (h : Host) (w : World) :
  exists devices,
    listDevices h w = (Returned devices, emit (EvExec "v4l2-ctl --list-devices") w)
    /\ match exec_error (host_env h) "v4l2-ctl --list-devices" with
       | Some _ => devices = []
       | None =>
           devices `sublist_of` split_on newline (stdout_of h "v4l2-ctl --list-devices")
           /\ forall line,
                line ∈ devices
                <-> line ∈ split_on newline (stdout_of h "v4l2-ctl --list-devices")
                    /\ exists pre post, line = pre +:+ "/dev/video" +:+ post
       end.
Proof.
  unfold listDevices, try_catch, bind, execAsync_stdout, ret.
  destruct (exec_error (host_env h) "v4l2-ctl --list-devices") as [e|].
  - by eexists.
  - eexists. split; [done|]. split; [apply sublist_filter|].
    intros line. rewrite list_elem_of_filter, includes_spec. tauto.
Qed.

(** ** [capturePhoto] *)

(** X20. [capturePhoto] never throws and changes nothing but the
    log, to which it adds the one [ffmpeg] grab command: it neither
    needs nor disturbs a stream on the device.  It reports success
    exactly when the grab command and the reading of the file both
    succeed, and then returns the path and the encoded file content;
    otherwise its error text is the cause after the words
    [Failed to capture photo: ]. *)
Theorem capturePhoto_reports_and_touches_nothing (h : Host) (device : string)
    (w : World) :
  exists r,
    capturePhoto h device w
    = (Returned r, emit (EvExec (capture_command h device)) w)
    /\ (ph_success r = true
        <-> exec_error (host_env h) (capture_command h device) = None
            /\ exists bytes, read_file h (capture_path h) = Returned bytes)
    /\ (forall bytes,
          exec_error (host_env h) (capture_command h device) = None ->
          read_file h (capture_path h) = Returned bytes ->
          ph_data r = Some {| ph_path := capture_path h;
                              ph_base64 := base64 h bytes;
                              ph_device := device |})
    /\ (ph_success r = false ->
        ph_data r = None
        /\ exists cause, ph_error r = Some ("Failed to capture photo: " +:+ cause)).
Proof.
  unfold capturePhoto, try_catch, bind, execAsync, readFile, ret.
  destruct (exec_error (host_env h) (capture_command h device)) as [e|].
  - eexists. split; [done|]. cbn. split_and!; try done.
    + split; [done|]. by intros [? _].
    + intros _. split; [done|]. by eexists.
  - destruct (read_file h (capture_path h)) as [bytes|e] eqn:Hread.
    + eexists. split; [done|]. cbn. split_and!; try done.
      * split; [|done]. intros _. split; [done|]. by eexists.
      * by intros bytes' _ [= <-].
    + eexists. split; [done|]. cbn. split_and!; try done.
      * split; [done|]. by intros [_ [? ?]].
      * intros _. split; [done|]. by eexists.
Qed.

(** ** What the tools answer when the manager reports a failure *)

(** X21. A failure inside [capturePhoto] does not become an error of
    the [capture_webcam_photo] tool: the tool answers with one text
    item and no image, and since both the manager and the handler put
    [Failed to capture photo: ] in front, the text carries these words
    twice.  With no [device] argument the grab is made on
    [/dev/video20]. *)
Theorem capture_tool_reports_failure_as_text (h : Host) (a : WebcamArgs)
    (w : World) (e : string) :
  exec_error (host_env h)
    (capture_command h (default default_device (wa_device a))) = Some e ->
  capture_webcam_photo h (Some a) w
  = (Returned [TextItem ("Failed to capture photo: Failed to capture photo: Error: "
                         +:+ e)],
     emit (EvExec (capture_command h (default default_device (wa_device a)))) w).
Proof.
  intros He. unfold capture_webcam_photo, bind, capturePhoto, try_catch, bind, execAsync.
  by rewrite He.
Qed.

Lemma capture_tool_reports_failure_as_text_witness :
  capture_webcam_photo no_shell_host (Some {| wa_device := None |}) one_stream
  = (Returned [TextItem ("Failed to capture photo: Failed to capture photo: Error: "
                         +:+ "command not found")],
     emit (EvExec (capture_command no_shell_host
                     (default default_device (wa_device {| wa_device := None |}))))
       one_stream).
Proof.
  apply (capture_tool_reports_failure_as_text no_shell_host {| wa_device := None |}
           one_stream "command not found").
  reflexivity.
Defined.

(** X22. When [spawn] itself throws, the [start_webcam] tool does not
    fail: it answers with a text that carries the words
    [Failed to start webcam: ] twice, once from the manager and once
    from the handler.  The stream that was running on the device has
    been stopped by then, and the device is left without an entry. *)
Theorem start_tool_reports_thrown_spawn_as_text (env : Env) (p : StartParams)
    (w : World) (m : Mode) (e : string) :
  parse_mode (sp_mode p) = Some m ->
  m <> text ->
  spawn_result env (direct_command m (or_default (sp_device p) default_device) p)
    = SpawnThrows e ->
  call_tool env (CallStartWebcam (Some p)) w
  = (Returned ("Failed to start webcam: Failed to start webcam: Error: " +:+ e),
     stopWebcam (or_default (sp_device p) default_device) w)
  /\ ffmpegProcesses (call_tool env (CallStartWebcam (Some p)) w).2
       !! or_default (sp_device p) default_device = None.
Proof.
  intros Hm Hnt Hs.
  assert (Hrun : call_tool env (CallStartWebcam (Some p)) w
            = (Returned ("Failed to start webcam: Failed to start webcam: Error: "
                         +:+ e),
               stopWebcam (or_default (sp_device p) default_device) w)).
  { unfold call_tool, try_catch, start_webcam, bind.
    by rewrite (start_result_reports_thrown_spawn _ _ _ _ _ Hm Hnt Hs). }
  rewrite Hrun. split; [done|]. apply stopWebcam_lookup.
Qed.

Lemma start_tool_reports_thrown_spawn_as_text_witness :
  call_tool spawn_refused (CallStartWebcam (Some pattern_smpte)) one_stream
  = (Returned ("Failed to start webcam: Failed to start webcam: Error: "
               +:+ "spawn E2BIG"),
     stopWebcam (or_default (sp_device pattern_smpte) default_device) one_stream)
  /\ ffmpegProcesses
       (call_tool spawn_refused (CallStartWebcam (Some pattern_smpte)) one_stream).2
       !! or_default (sp_device pattern_smpte) default_device = None.
Proof.
  apply (start_tool_reports_thrown_spawn_as_text spawn_refused pattern_smpte one_stream
           pattern "spawn E2BIG"); [reflexivity|discriminate|reflexivity].
Defined.

(** * Generated Python tests *)

Lemma chars_app a b : chars (a +:+ b) = chars a ++ chars b.
Proof.
  induction a as [|x a IH]; [done|].
  change (x :: chars (a +:+ b) = x :: chars a ++ chars b). by rewrite IH.
Qed.

Lemma replace_non_alnum_chars s :
  Forall (fun c => ident_char c = true) (chars (replace_non_alnum s)).
Proof.
  induction s as [|c s IH]; cbn; [constructor|]. constructor; [|done].
  unfold ident_char.
  destruct (is_lower c) eqn:?, (is_upper c) eqn:?, (is_digit c) eqn:?; cbn;
    try done; try by rewrite Heqb; try by rewrite Heqb0; try by rewrite Heqb1.
Qed.

Lemma replace_non_alnum_length s :
  String.length (replace_non_alnum s) = String.length s.
Proof. induction s as [|c s IH]; cbn; [done|]. by rewrite IH. Qed.

Lemma replace_non_alnum_idemp s :
  replace_non_alnum (replace_non_alnum s) = replace_non_alnum s.
Proof.
  induction s as [|c s IH]; cbn; [done|]. rewrite IH. f_equal.
  destruct (is_lower c || is_upper c || is_digit c) eqn:Hc; [by rewrite Hc|done].
Qed.

(** X23. The name [generatePythonTest] gives the test method is made
    of letters, digits and underscores only, whatever the URL: every
    other character of the URL is replaced by one underscore, so that
    the URL part keeps its length, and URLs that differ only in such
    characters get the same method name. *)
Theorem python_method_name_is_an_identifier (url : string) (ty : TestType) :
  Forall (fun c => ident_char c = true) (chars (python_method_name url ty))
  /\ String.length (replace_non_alnum url) = String.length url
  /\ replace_non_alnum (replace_non_alnum url) = replace_non_alnum url
  /\ (forall url', replace_non_alnum url' = replace_non_alnum url ->
        python_method_name url' ty = python_method_name url ty).
Proof.
  split_and!.
  - unfold python_method_name. rewrite !chars_app, !Forall_app. split_and!.
    + by repeat constructor.
    + destruct ty; by repeat constructor.
    + by repeat constructor.
    + apply replace_non_alnum_chars.
  - apply replace_non_alnum_length.
  - apply replace_non_alnum_idemp.
  - intros url' H. unfold python_method_name. by rewrite H.
Qed.

(** X24. Every file [generatePythonTest] produces starts with the
    same two import lines, [pytest] and [playwright.sync_api], followed
    by the class; they do not import [re].  Yet for every test type
    except [form] the generated body calls [re.compile]. *)
Theorem python_tests_use_re_without_importing_it (url : string) (ty : TestType) :
  (exists rest,
     generatePythonTest url ty
     = "import pytest" +:+ nl
       +:+ "from playwright.sync_api import Page, expect" +:+ nl +:+ nl
       +:+ "class Test" +:+ rest)
  /\ includes python_imports "import re" = false
  /\ (ty <> form -> includes (generatePythonTest url ty) "re.compile(" = true).
Proof.
  split_and!.
  - assert (Hbase : exists rest0, python_baseTest url ty
              = "import pytest" +:+ nl
                +:+ "from playwright.sync_api import Page, expect" +:+ nl +:+ nl
                +:+ "class Test" +:+ rest0) by (by eexists).
    destruct Hbase as (rest0 & Hbase).
    destruct ty; cbn [generatePythonTest]; rewrite Hbase;
      eexists; rewrite !append_assoc_str; reflexivity.
  - by vm_compute.
  - intros Hty. destruct ty; try done; cbn [generatePythonTest];
      apply includes_app_r; by vm_compute.
Qed.

(** * More on the pool *)

(** X25. The six configurations have six different keys, so a
    [getBrowser] call for one configuration never changes the pool
    entry of another: whatever the call does, every other key maps to
    what it mapped to before. *)
Theorem getBrowser_keeps_other_configurations (env : Env) (t t' : EngineType)
    (headless headless' : bool) (w : World) :
  (t', headless') <> (t, headless) ->
  key t' headless' <> key t headless
  /\ browsers (getBrowser env t headless w).2 !! key t' headless'
     = browsers w !! key t' headless'.
Proof.
  intros Hne.
  assert (Hk : key t' headless' <> key t headless).
  { intros Hk. apply key_inj in Hk as [-> ->]. by destruct Hne. }
  split; [done|].
  unfold getBrowser, bind, effect, ret, launch.
  destruct (browsers w !! key t headless); [done|].
  destruct (launch_error env (launch_engine t) headless); [done|].
  cbn. by rewrite lookup_insert_ne.
Qed.

Lemma getBrowser_keeps_other_configurations_witness :
  key firefox true <> key chromium true
  /\ browsers (getBrowser quiet chromium true busy_server).2 !! key firefox true
     = browsers busy_server !! key firefox true.
Proof.
  apply (getBrowser_keeps_other_configurations quiet chromium firefox true true
           busy_server).
  discriminate.
Defined.

(** X26. Once the pooled browser of a configuration is no longer
    connected, every page tool call for that configuration with valid
    arguments fails with the library's closed-browser error and leaves
    the world exactly as it was, dead entry included: the same call
    made again meets the same world and fails the same way. *)
Theorem dead_pool_entry_fails_every_call (env : Env) (tool : PageTool)
    (args : PageArgs) (w : World) (b : nat) (br : Browser) :
  url_issues env args ++ browser_issues args ++ rest_issues args = [] ->
  browsers w !! key (default chromium (a_browser args ≫= parse_engine))
                    (default true (a_headless args)) = Some b ->
  engines w !! b = Some br ->
  br_connected br = false ->
  call_tool env (CallPage tool args) w = (Threw (Error closed_message), w)
  /\ forall n, page_tool_times env tool args n w = w.
Proof.
  intros Hparse Hk Hb Hc.
  assert (Hrun : page_tool env tool args w = (Threw (Error closed_message), w)).
  { unfold page_tool, bind. rewrite (parse_args_ok _ _ _ Hparse).
    cbn [pp_browser pp_headless pp_url].
    rewrite (getBrowser_stored _ _ _ _ _ Hk).
    by rewrite (newContext_dead _ _ _ Hb Hc). }
  split.
  - unfold call_tool, try_catch. by rewrite Hrun.
  - intros n. induction n as [|n IH]; [done|].
    cbn [page_tool_times]. by rewrite Hrun.
Qed.

Lemma dead_pool_entry_fails_every_call_witness :
  call_tool quiet (CallPage extract_data example_args) dead_pool
    = (Threw (Error closed_message), dead_pool)
  /\ forall n, page_tool_times quiet extract_data example_args n dead_pool = dead_pool.
Proof.
  apply (dead_pool_entry_fails_every_call quiet extract_data example_args dead_pool 0
           {| br_engine := chromium; br_headless := true; br_connected := false |});
    reflexivity.
Defined.

(** * The [list_webcams] tool *)

(** X27. The [list_webcams] tool never fails: it answers with one
    text item, and that text is [No webcam devices found] exactly when
    the listing command fails or no line of its output contains
    [/dev/video]; otherwise it is the header followed by the device
    lines, one per line. *)
Theorem list_webcams_always_answers (h : Host) (w : World) :
  exists txt,
    list_webcams h w
    = (Returned [TextItem txt], emit (EvExec "v4l2-ctl --list-devices") w)
    /\ (txt = "No webcam devices found"
        <-> (listDevices h w).1 = Returned [])
    /\ (forall d ds, (listDevices h w).1 = Returned (d :: ds) ->
          txt = "Available webcam devices:" +:+ nl +:+ join nl (d :: ds)).
Proof.
  destruct (listDevices_shape h w) as (devices & Hrun).
  unfold list_webcams, bind, ret. rewrite Hrun. cbn [fst].
  eexists. split; [done|]. split.
  - destruct devices as [|d ds]; [done|]. split; [|done].
    intros Htxt. exfalso. revert Htxt. generalize (join nl (d :: ds)). intros rest Htxt.
    vm_compute in Htxt. discriminate Htxt.
  - intros d ds [= ->]. done.
Qed.
